(** * SCC: iterative tie-point filtering (src/SCC.py)

    A shallow embedding of the convergence engine of [SCC.py]: the
    threshold search of [executeStep], its iteration loop and reversal
    diagnostics, the caller [runButtonClicked], and the statistic
    [getNumProjectionsLowerThan]; further [runAllSteps], the residual
    statistic [calcRMS], the scale bar statistics, the fields of the
    report with their reading back, and the session file.

    Conventions of the embedding.
    - Python floats are read as exact rationals ([Q]); [int(x)] truncates
      toward zero, [l[i]] wraps negative indices and raises [IndexError]
      out of range, [max([])] raises [ValueError].  Module [Binary64]
      recomputes the indices of the scenarios on IEEE 754 doubles.
    - The reconstruction engine (Metashape) is an interface: point
      removal, camera optimization and the residual behind [calcRMS] are
      operations of the class [Metashape]; every theorem holds for all of
      its instances unless it names one.
    - A tie point carries its validity flag, its track id and its error
      value per filter criterion.  [Filter.init] takes the values of all
      points at that moment and the filter keeps them ([f.values]); the
      collection [points] is a view of the chunk's tie points, so
      [points[i].valid] is the validity at the time of reading.
    - Printing, the widgets of the report and the read-only statistics
      taken before and after the loop are left out; they are assumed not
      to raise. *)

From Stdlib Require Import ZArith QArith Qround List Bool Lia.
From Stdlib Require Import Permutation Sorted Orders Mergesort.
From Stdlib Require Floats Uint63.
From Stdlib Require Ascii String DecimalString DecimalZ DecimalPos.
Import ListNotations.

Set Implicit Arguments.

(** ** Python primitives used by the source *)

Inductive Exn : Set := IndexError | ValueError | NameError.

Module Py.

(** [int(x)] on a float: truncation toward zero. *)
Definition int (x : Q) : Z := Z.quot (Qnum x) (Zpos (Qden x)).

(** [l[i]]: negative indices count from the end; [None] is IndexError. *)
Definition getitem {A : Type} (l : list A) (i : Z) : option A :=
  let n := Z.of_nat (length l) in
  if (0 <=? i)%Z then nth_error l (Z.to_nat i)
  else if (- n <=? i)%Z then nth_error l (Z.to_nat (n + i))
  else None.

(** [x < y] and [x > y], [x <= y] on floats. *)
Definition lt (x y : Q) : bool := negb (Qle_bool y x).
Definition gt (x y : Q) : bool := lt y x.
Definition le (x y : Q) : bool := Qle_bool x y.

(** [max(l)]; [None] is the ValueError of an empty argument. *)
Fixpoint max (l : list Q) : option Q :=
  match l with
  | [] => None
  | x :: r =>
      match max r with
      | None => Some x
      | Some m => Some (if lt x m then m else x)
      end
  end.

(** Truth value of a float-or-None: [None] and [0.0] are false. *)
Definition truthy (x : option Q) : bool :=
  match x with
  | None => false
  | Some q => negb (Qeq_bool q 0)
  end.

(** [reversed(range(a, b, 1))]: b-1, b-2, ..., a. *)
Definition reversed_range (a b : Z) : list Z :=
  map (fun i => (b - 1 - Z.of_nat i)%Z) (seq 0 (Z.to_nat (b - a))).

(** [range(n)] for a non-negative or negative int n. *)
Definition range (n : Z) : list Z :=
  map Z.of_nat (seq 0 (Z.to_nat n)).

(** [len(l)] as a float operand. *)
Definition len {A : Type} (l : list A) : Q := inject_Z (Z.of_nat (length l)).

End Py.

(** [list.sort()] on floats. *)
Module QOrder <: TotalLeBool.
Definition t := Q.
Definition leb := Qle_bool.
Theorem leb_total : forall a1 a2, leb a1 a2 = true \/ leb a2 a1 = true.
Proof.
  intros a b. unfold leb. rewrite !Qle_bool_iff.
  destruct (Qlt_le_dec a b) as [H|H]; [left; apply Qlt_le_weak|right]; exact H.
Qed.
End QOrder.

Module QSort := Sort QOrder.

(** ** Percentile-descent threshold search (executeStep, lines 1240-1265) *)

Definition mfac : Z := 100.

(** The candidate fraction [n = n / mfac] of loop counter [k]. *)
Definition fraction (k : Z) : Q := inject_Z k / inject_Z mfac.

(** [int(len(list_values_valid) * (n / 100))]. *)
Definition scan_target (D : list Q) (n : Q) : Z :=
  Py.int (Py.len D * (n / 100)).

(** [int(len(list_values_valid) * (n+(1/mfac)) / 100)]. *)
Definition backoff_target (D : list Q) (n : Q) : Z :=
  Py.int (Py.len D * (n + (1 / inject_Z mfac)) / 100).

(** The body of [for n in reversed(range(...))], over the remaining
    counters.  The first lookup is outside the [try]; the back-off lookup
    is inside it, and its [except] branch does not leave the loop. *)
Fixpoint scan (D : list Q) (target_threshold : Q) (ks : list Z)
              (threshold : option Q) (fin : bool) : Exn + (option Q * bool) :=
  match ks with
  | [] => inr (threshold, fin)
  | k :: ks' =>
      let n := fraction k in
      match Py.getitem D (scan_target D n) with
      | None => inl IndexError
      | Some th =>
          if Py.lt th target_threshold then
            match Py.getitem D (backoff_target D n) with
            | Some th' => inr (Some th', true)                  (* break *)
            | None => scan D target_threshold ks' None true     (* except *)
            end
          else scan D target_threshold ks' (Some th) fin
      end
  end.

Definition scan_range (target_percent : Q) : list Z :=
  Py.reversed_range (100 * mfac - Py.int target_percent * mfac) (100 * mfac).

Definition percentile_descent (D : list Q) (target_percent target_threshold : Q)
           (threshold : option Q) (fin : bool) : Exn + (option Q * bool) :=
  scan D target_threshold (scan_range target_percent) threshold fin.

(** ** Data model: what the code reads from the chunk *)

(** [Metashape.TiePoints.Filter] criteria. *)
Inductive Criterion : Set :=
  ReconstructionUncertainty | ProjectionAccuracy | ReprojectionError.

(** The four step names: 'Reconstruction Uncertainty', 'Projection
    Accuracy', 'Reprojection Error' and 'Reprojection Error (RMSE
    Minimization)'. *)
Inductive Step : Set :=
  Step_ReconstructionUncertainty | Step_ProjectionAccuracy
| Step_ReprojectionError | Step_RMSE.

(** The dict [criteria] of executeStep. *)
Definition criteria (step : Step) : Criterion :=
  match step with
  | Step_ReconstructionUncertainty => ReconstructionUncertainty
  | Step_ProjectionAccuracy => ProjectionAccuracy
  | Step_ReprojectionError => ReprojectionError
  | Step_RMSE => ReprojectionError
  end.

(** [step == 'Reprojection Error (RMSE Minimization)']. *)
Definition is_rmse (step : Step) : bool :=
  match step with Step_RMSE => true | _ => false end.

Record Point : Type := {
  valid : bool;
  track_id : nat;
  value : Criterion -> Q      (* the point's entry of Filter.values *)
}.

Inductive CameraType : Set := Regular | Keyframe.

Record Camera : Type := {
  cam_type : CameraType;          (* camera.type *)
  transform : bool;               (* truth value of camera.transform *)
  enabled : bool;
  cam_projections : list nat      (* track ids of projections[camera] *)
}.

Record Chunk : Type := {
  tiepoint_accuracy : Q;
  points : list Point;            (* chunk.tie_points.points *)
  tracks : nat;                   (* len(chunk.tie_points.tracks) *)
  cameras : list Camera
}.

Definition set_tiepoint_accuracy (a : Q) (c : Chunk) : Chunk :=
  {| tiepoint_accuracy := a; points := points c;
     tracks := tracks c; cameras := cameras c |}.

(** The keyword arguments of [chunk.optimizeCameras]. *)
Record FitFlags : Set := {
  fit_f : bool; fit_cx : bool; fit_cy : bool; fit_b1 : bool; fit_b2 : bool;
  fit_k1 : bool; fit_k2 : bool; fit_k3 : bool; fit_k4 : bool;
  fit_p1 : bool; fit_p2 : bool; fit_corrections : bool;
  adaptive_fitting : bool; tiepoint_covariance : bool
}.

(** [camera_check_boxes[step]]: one box serves cx and cy. *)
Record CheckBoxes : Set := {
  box_f : bool; box_cx_cy : bool; box_b1 : bool; box_b2 : bool;
  box_k1 : bool; box_k2 : bool; box_k3 : bool; box_k4 : bool;
  box_p1 : bool; box_p2 : bool; box_corrections : bool;
  box_adaptive : bool; box_covariance : bool
}.

Definition flags_of (b : CheckBoxes) : FitFlags :=
  {| fit_f := box_f b; fit_cx := box_cx_cy b; fit_cy := box_cx_cy b;
     fit_b1 := box_b1 b; fit_b2 := box_b2 b;
     fit_k1 := box_k1 b; fit_k2 := box_k2 b; fit_k3 := box_k3 b;
     fit_k4 := box_k4 b; fit_p1 := box_p1 b; fit_p2 := box_p2 b;
     fit_corrections := box_corrections b;
     adaptive_fitting := box_adaptive b;
     tiepoint_covariance := box_covariance b |}.

(** The line edits and check boxes of one step.  A line edit is given by
    what [float(ledit.text())] yields; [None] is its ValueError. *)
Record StepWidgets : Type := {
  target_percent_ledit : option Q;
  target_threshold_ledit : option Q;
  max_iter_ledit : option Q;
  tiepoint_ledit : option Q;
  camera_check_boxes : CheckBoxes
}.

(** The engine operations executeStep calls.  [removePoints values th c]
    is [f.selectPoints(th); f.removePoints(th)] for a filter [f] whose
    [values] were taken at its [init]; [calcRMS] is the residual RMS of
    [calcRMS()], whose camera model is the engine's. *)
Class Metashape : Type := {
  removePoints : list Q -> Q -> Chunk -> Chunk;
  optimizeCameras : FitFlags -> Chunk -> Chunk;
  calcRMS : Chunk -> Q
}.

(** ** The iteration of executeStep *)

(** [f = Filter(); f.init(chunk, criterion); f.values]. *)
Definition filter_init (criterion : Criterion) (c : Chunk) : list Q :=
  map (fun p => value p criterion) (points c).

(** [for i in range(len(list_values)): if points[i].valid: append];
    [None] is the IndexError of [points[i]]. *)
Fixpoint valid_values (list_values : list Q) (pts : list Point) : option (list Q) :=
  match list_values with
  | [] => Some []
  | v :: vs =>
      match pts with
      | [] => None
      | p :: ps =>
          match valid_values vs ps with
          | None => None
          | Some r => Some (if valid p then v :: r else r)
          end
      end
  end.

(** The distribution [list_values_valid] after [.sort()]. *)
Definition sample (list_values : list Q) (pts : list Point) : option (list Q) :=
  option_map QSort.sort (valid_values list_values pts).

(** [len([val for val in list_values_valid if val > target_threshold])]. *)
Definition count_above (target_threshold : Q) (l : list Q) : Z :=
  Z.of_nat (length (filter (fun val => Py.gt val target_threshold) l)).

(** [int(len(list_values_valid) * ((100-target_percent) / 100))]. *)
Definition rmse_target (D : list Q) (target_percent : Q) : Z :=
  Py.int (Py.len D * ((100 - target_percent) / 100)).

(** State of a run: the chunk and the local variables that live across
    iterations. *)
Record Vars : Type := {
  chunk : Chunk;
  fin : bool;
  threshold : option Q;
  npoint_list : list Z
}.

Inductive Res (A : Type) : Type :=
| Ok (a : A)
| Raise (e : Exn) (c : Chunk).
Arguments Raise {A} e c.

Definition bind {A B : Type} (m : Res A) (k : A -> Res B) : Res B :=
  match m with
  | Ok a => k a
  | Raise e c => Raise e c
  end.

Notation "'do' x <- m ; k" := (bind m (fun x => k))
  (at level 10, x pattern, m at level 100, k at level 200).

Section Engine.

Context {engine : Metashape}.

Variables (step : Step) (target_percent target_threshold : Q) (flags : FitFlags).

(** Lines 1240-1275: the threshold search of either variant. *)
Definition search (c : Chunk) (D : list Q) (threshold0 : option Q) (fin0 : bool)
  : Exn + (option Q * bool) :=
  if negb (is_rmse step) then
    percentile_descent D target_percent target_threshold threshold0 fin0
  else
    let rms := calcRMS c in
    if Py.gt rms target_threshold then
      match Py.getitem D (rmse_target D target_percent) with
      | Some th => inr (Some th, fin0)
      | None => inl IndexError
      end
    else inr (threshold0, fin0).

(** Lines 1299-1307: the filter whose values are re-sampled, and [fin]
    after the check of the maximum.  The filter is created anew only
    under [fin == True]. *)
Definition recheck (c : Chunk) (f : list Q) (fin0 : bool) : Res (list Q * bool) :=
  if fin0 then
    let f' := filter_init (criteria step) c in
    match Py.max f' with
    | None => Raise ValueError c
    | Some m => Ok (f', if Py.gt m target_threshold then false else true)
    end
  else Ok (f, fin0).

(** Lines 1316-1323: the re-sampled distribution.  [points] is the
    collection fetched at the head of the iteration, a view of the
    chunk's tie points. *)
Definition resample (c : Chunk) (f : list Q) : Res (list Q) :=
  match sample f (points c) with
  | None => Raise IndexError c
  | Some D => Ok D
  end.

(** Lines 1279-1334: the body of [if threshold:]. *)
Definition refine (th : Q) (f : list Q) (v : Vars) : Res (Vars * list Q) :=
  let c1 := removePoints f th (chunk v) in
  let c2 := optimizeCameras flags c1 in
  do (f', fin1) <- recheck c2 f (fin v);
  do D' <- resample c2 f';
  if negb (is_rmse step) then
    let npoints := count_above target_threshold D' in
    Ok ({| chunk := c2; fin := (npoints <=? 10)%Z; threshold := Some th;
           npoint_list := npoint_list v ++ [npoints] |}, f')
  else
    Ok ({| chunk := c2; fin := fin1; threshold := Some th;
           npoint_list := npoint_list v |}, f').

(** Lines 1338-1349: the RMSE check that ends the body. *)
Definition rmse_check (v : Vars) (f : list Q) : Vars * list Q :=
  if is_rmse step then
    let f' := filter_init (criteria step) (chunk v) in
    let rms := calcRMS (chunk v) in
    ({| chunk := chunk v;
        fin := if Py.le rms target_threshold then true else fin v;
        threshold := threshold v; npoint_list := npoint_list v |}, f')
  else (v, f).

(** Lines 1205-1349: one pass of the body of [for it in range(...)], up
    to the test [if fin:].  It yields the variables and the filter [f]
    in force at that test. *)
Definition iteration (it : Z) (v : Vars) : Res (Vars * list Q) :=
  let c := chunk v in
  let f := filter_init (criteria step) c in
  match sample f (points c) with
  | None => Raise IndexError c
  | Some D =>
      match (if (it =? 0)%Z then Py.max D else Some 0) with
      | None => Raise ValueError c                 (* max(list_values_valid) *)
      | Some _ =>
          match search c D (threshold v) (fin v) with
          | inl e => Raise e c
          | inr (th, fin1) =>
              let v1 := {| chunk := c; fin := fin1; threshold := th;
                           npoint_list := npoint_list v |} in
              do (v2, f2) <-
                 match th with
                 | Some q => if Py.truthy th then refine q f v1 else Ok (v1, f)
                 | None => Ok (v1, f)
                 end;
              Ok (rmse_check v2 f2)
          end
      end
  end.

End Engine.

(** ** Reversal diagnostics (lines 1357-1360 and 1391-1394) *)

(** [[npoint_list[i] - npoint_list[i-1] for i in range(1, len(npoint_list))]]. *)
Fixpoint differences (npoint_list : list Z) : list Z :=
  match npoint_list with
  | a :: (b :: _) as rest => (b - a)%Z :: differences rest
  | _ => []
  end.

(** [[d for d in differences if d >= 0]]. *)
Definition reversals (diffs : list Z) : list Z :=
  filter (fun d => (0 <=? d)%Z) diffs.

Definition n_reverse_of (npoint_list : list Z) : Z :=
  Z.of_nat (length (reversals (differences npoint_list))).

Definition sum_positive_diff_of (npoint_list : list Z) : Z :=
  fold_right Z.add 0%Z (reversals (differences npoint_list)).

(** ** The run: executeStep *)

(** What a run hands to [updateTreeEntries], with the history it was
    computed from and whether the goal was reached. *)
Record RunResult : Type := {
  N_iter : Z;                      (* it + 1 *)
  converged : bool;
  history : list Z;                (* npoint_list *)
  n_points_left : nat;
  threshold_final : Q;
  n_reverse : Z;
  sum_positive_diff : Z
}.

Inductive Outcome : Type :=
| Finished (r : RunResult)
| Raised (e : Exn).

(** [len([p for p in self.chunk.tie_points.points if p.valid])]. *)
Definition count_valid (c : Chunk) : nat :=
  length (filter valid (points c)).

(** The statistics both final blocks compute from [f], the chunk and the
    history; [max(f.values)] raises on an empty filter. *)
Definition report (reached : bool) (it : Z) (v : Vars) (f : list Q) : Chunk * Outcome :=
  match Py.max f with
  | None => (chunk v, Raised ValueError)
  | Some m =>
      (chunk v,
       Finished {| N_iter := it + 1; converged := reached;
                   history := npoint_list v;
                   n_points_left := count_valid (chunk v);
                   threshold_final := m;
                   n_reverse := n_reverse_of (npoint_list v);
                   sum_positive_diff := sum_positive_diff_of (npoint_list v) |})
  end.

Section Run.

Context {engine : Metashape}.

Variables (step : Step) (target_percent target_threshold max_iter : Q)
          (flags : FitFlags).

(** Lines 1379-1425, reached when the [for] loop ends without [break].
    With no pass at all [it] is unbound; when
    [it == (max_iter-1) and fin == False] fails, [n_points_left] is
    unbound at the call of updateTreeEntries. *)
Definition after_loop (last_it : option Z) (v : Vars) : Chunk * Outcome :=
  match last_it with
  | None => (chunk v, Raised NameError)
  | Some it =>
      if Qeq_bool (inject_Z it) (max_iter - 1) && negb (fin v) then
        report false it v (filter_init (criteria step) (chunk v))
      else (chunk v, Raised NameError)
  end.

(** [for it in range(int(max_iter)): ...; if fin: ...; break]. *)
Fixpoint loop (its : list Z) (last_it : option Z) (v : Vars) : Chunk * Outcome :=
  match its with
  | [] => after_loop last_it v
  | it :: its' =>
      match iteration step target_percent target_threshold flags it v with
      | Raise e c => (c, Raised e)
      | Ok (v', f) =>
          if fin v' then report true it v' f
          else loop its' (Some it) v'
      end
  end.

End Run.

(** The local variables at the head of the first pass, after line 1148. *)
Definition initial (c : Chunk) : Vars :=
  {| chunk := c; fin := false; threshold := None; npoint_list := [] |}.

Definition executeStep {engine : Metashape} (widgets : Step -> StepWidgets)
           (step : Step) (target_percent target_threshold max_iter : Q)
           (c : Chunk) : Chunk * Outcome :=
  match tiepoint_ledit (widgets step) with
  | None => (c, Raised ValueError)
  | Some a =>
      loop step target_percent target_threshold max_iter
           (flags_of (camera_check_boxes (widgets step)))
           (Py.range (Py.int max_iter)) None
           (initial (set_tiepoint_accuracy a c))
  end.

(** [runButtonClicked]: [rval] is the answer of the confirmation dialog;
    the three arguments are converted left to right before the call.
    [None] as outcome: returned without running. *)
Definition runButtonClicked {engine : Metashape} (rval : bool)
           (widgets : Step -> StepWidgets) (step : Step) (c : Chunk)
  : Chunk * option Outcome :=
  if negb rval then (c, None)
  else
    match target_percent_ledit (widgets step) with
    | None => (c, Some (Raised ValueError))
    | Some p =>
        match target_threshold_ledit (widgets step) with
        | None => (c, Some (Raised ValueError))
        | Some t =>
            match max_iter_ledit (widgets step) with
            | None => (c, Some (Raised ValueError))
            | Some m =>
                let (c', o) := executeStep widgets step p t m c in (c', Some o)
            end
        end
    end.

(** ** getNumProjectionsLowerThan (lines 1507-1553) *)

(** [l[i] = x] for a non-negative index; [None] is IndexError. *)
Fixpoint setitem {A : Type} (l : list A) (i : nat) (x : A) : option (list A) :=
  match l, i with
  | [], _ => None
  | _ :: r, O => Some (x :: r)
  | y :: r, S j => option_map (cons y) (setitem r j x)
  end.

(** [for point_id in range(0, npoints): point_ids[points[point_id].track_id] = point_id],
    from [point_id] on. *)
Fixpoint fill_point_ids (pts : list Point) (point_id : Z) (point_ids : list Z)
  : option (list Z) :=
  match pts with
  | [] => Some point_ids
  | p :: r =>
      match setitem point_ids (track_id p) point_id with
      | None => None
      | Some ids => fill_point_ids r (point_id + 1) ids
      end
  end.

(** The inner loop over [projections[camera]]: the number of projections
    onto valid points, added to [nprojections]. *)
Fixpoint count_projections (pts : list Point) (point_ids : list Z)
         (projs : list nat) (nprojections : Z) : option Z :=
  match projs with
  | [] => Some nprojections
  | track :: r =>
      match nth_error point_ids track with
      | None => None
      | Some point_id =>
          if (point_id <? 0)%Z then count_projections pts point_ids r nprojections
          else
            match Py.getitem pts point_id with
            | None => None
            | Some p =>
                if negb (valid p) then count_projections pts point_ids r nprojections
                else count_projections pts point_ids r (nprojections + 1)
            end
      end
  end.

(** The loop over [chunk.cameras], carrying [sums] and [cameras_with_proj]. *)
Fixpoint camera_loop (pts : list Point) (point_ids : list Z) (cams : list Camera)
         (sums cameras_with_proj : Z) : option (Z * Z) :=
  match cams with
  | [] => Some (sums, cameras_with_proj)
  | camera :: r =>
      match cam_type camera with
      | Keyframe => camera_loop pts point_ids r sums cameras_with_proj
      | Regular =>
          if negb (transform camera) then
            camera_loop pts point_ids r sums cameras_with_proj
          else
            match count_projections pts point_ids (cam_projections camera) 0 with
            | None => None
            | Some nprojections =>
                camera_loop pts point_ids r
                  (if (nprojections <? 100)%Z then sums + 1 else sums)%Z
                  (cameras_with_proj + 1)%Z
            end
      end
  end.

(** [None] is an IndexError of one of the lookups. *)
Definition getNumProjectionsLowerThan (c : Chunk) : option Z :=
  match fill_point_ids (points c) 0 (repeat (-1)%Z (tracks c)) with
  | None => None
  | Some point_ids =>
      match camera_loop (points c) point_ids (cameras c) 0 0 with
      | None => None
      | Some (sums, cameras_with_proj) =>
          let cameras_without_proj :=
            (Z.of_nat (length (cameras c)) - cameras_with_proj)%Z in
          Some (sums + cameras_without_proj)%Z
      end
  end.

(** ** Concrete chunks and engines for the scenarios *)

(** Tie points with the given error values (the same for every
    criterion), all valid, the i-th on track i. *)
Fixpoint points_from (track : nat) (vals : list Q) : list Point :=
  match vals with
  | [] => []
  | q :: r =>
      {| valid := true; track_id := track; value := fun _ => q |}
      :: points_from (S track) r
  end.

Definition chunk_of (accuracy : Q) (vals : list Q) : Chunk :=
  {| tiepoint_accuracy := accuracy; points := points_from 0 vals;
     tracks := length vals; cameras := [] |}.

Definition with_points (pts : list Point) (c : Chunk) : Chunk :=
  {| tiepoint_accuracy := tiepoint_accuracy c; points := pts;
     tracks := tracks c; cameras := cameras c |}.

(** The engine's removal: a point whose filter value exceeds the
    threshold ([strict]) or reaches it (otherwise) is marked invalid. *)
Fixpoint invalidate (strict : bool) (values : list Q) (th : Q) (pts : list Point)
  : list Point :=
  match values, pts with
  | q :: vs, p :: ps =>
      (if (if strict then Py.gt q th else Py.le th q)
       then {| valid := false; track_id := track_id p; value := value p |}
       else p) :: invalidate strict vs th ps
  | _, _ => pts
  end.

(** An engine given by its removal rule, an optimizer acting on the
    error values, and an RMS read off the chunk. *)
Definition engine_of (strict : bool) (optimize : Q -> Q) (rms : Chunk -> Q) : Metashape :=
  {| removePoints := fun values th c => with_points (invalidate strict values th (points c)) c;
     optimizeCameras := fun _ c =>
       with_points (map (fun p => {| valid := valid p; track_id := track_id p;
                                     value := fun cr => optimize (value p cr) |})
                        (points c)) c;
     calcRMS := rms |}.

Definition no_boxes : CheckBoxes :=
  {| box_f := false; box_cx_cy := false; box_b1 := false; box_b2 := false;
     box_k1 := false; box_k2 := false; box_k3 := false; box_k4 := false;
     box_p1 := false; box_p2 := false; box_corrections := false;
     box_adaptive := false; box_covariance := false |}.

(** Widgets holding the same entries for every step. *)
Definition widgets_of (p t m a : option Q) : Step -> StepWidgets :=
  fun _ => {| target_percent_ledit := p; target_threshold_ledit := t;
              max_iter_ledit := m; tiepoint_ledit := a;
              camera_check_boxes := no_boxes |}.

Definition one_to_ten : list Q := map inject_Z [1; 2; 3; 4; 5; 6; 7; 8; 9; 10]%Z.
Definition one_to_three : list Q := map inject_Z [1; 2; 3]%Z.

(** The largest valid error value, as an RMS stand-in. *)
Definition max_valid_value (c : Chunk) : Q :=
  match sample (filter_init ReprojectionError c) (points c) with
  | Some D => match Py.max D with Some m => m | None => 0 end
  | None => 0
  end.

(** ** The index arithmetic in binary64

    The indices of the search as CPython computes them, on IEEE 754
    doubles, to compare with the exact ones at the scenarios. *)
Module Binary64.

Import PrimFloat.

(** [float(z)] for an int below 2^53 in magnitude. *)
Definition of_int (z : Z) : float :=
  if (z <? 0)%Z then opp (of_uint63 (Uint63.of_Z (- z)))
  else of_uint63 (Uint63.of_Z z).

(** [int(x)] for a finite x. *)
Definition int (x : float) : Z :=
  match FloatOps.Prim2SF x with
  | SpecFloat.S754_finite sign m e =>
      let magnitude := if (0 <=? e)%Z then Z.shiftl (Zpos m) e
                       else Z.shiftr (Zpos m) (- e) in
      if sign then (- magnitude)%Z else magnitude
  | _ => 0%Z
  end.

(** [n = n / mfac]. *)
Definition fraction (k : Z) : float := div (of_int k) (of_int mfac).

(** [int(len(list_values_valid) * (n / 100))]. *)
Definition scan_target (len k : Z) : Z :=
  int (mul (of_int len) (div (fraction k) (of_int 100))).

(** [int(len(list_values_valid) * (n+(1/mfac)) / 100)]. *)
Definition backoff_target (len k : Z) : Z :=
  int (div (mul (of_int len) (add (fraction k) (div (of_int 1) (of_int mfac))))
           (of_int 100)).

(** [int(len(list_values_valid) * ((100-target_percent) / 100))] for an
    integral target_percent. *)
Definition rmse_target (len percent : Z) : Z :=
  int (mul (of_int len) (div (sub (of_int 100) (of_int percent)) (of_int 100))).

End Binary64.

(** ** Specification-side notions the claims are stated with *)

(** The scan takes the [except IndexError] branch: the first value below
    the target is met at a candidate whose back-off index is past the end
    of the distribution. *)
Fixpoint overrun (D : list Q) (target_threshold : Q) (ks : list Z) : bool :=
  match ks with
  | [] => false
  | k :: ks' =>
      match Py.getitem D (scan_target D (fraction k)) with
      | None => false
      | Some th =>
          if Py.lt th target_threshold then
            match Py.getitem D (backoff_target D (fraction k)) with
            | Some _ => false
            | None => true
            end
          else overrun D target_threshold ks'
      end
  end.

(** The error values of the currently valid points of a chunk. *)
Definition valid_error_values (criterion : Criterion) (c : Chunk) : list Q :=
  map (fun p => value p criterion) (filter valid (points c)).


(** The low-projection count as the specification words it: cameras
    other than keyframes with fewer than 100 projections onto valid
    points, and cameras other than keyframes without a pose. *)
Definition is_keyframe (camera : Camera) : bool :=
  match cam_type camera with Keyframe => true | Regular => false end.

Definition few_projections (pts : list Point) (point_ids : list Z) (camera : Camera) : bool :=
  match count_projections pts point_ids (cam_projections camera) 0 with
  | Some n => (n <? 100)%Z
  | None => false
  end.

Definition low_projection_count_spec (c : Chunk) (point_ids : list Z) : Z :=
  Z.of_nat (length (filter (fun camera => negb (is_keyframe camera) && transform camera
                                          && few_projections (points c) point_ids camera)
                           (cameras c)))
  + Z.of_nat (length (filter (fun camera => negb (is_keyframe camera) && negb (transform camera))
                             (cameras c))).

Section Reach.

Context {engine : Metashape}.
Variables (step : Step) (target_percent target_threshold : Q) (flags : FitFlags).


End Reach.

Definition one_to_thirty : list Q := map (fun i => inject_Z (Z.of_nat i)) (seq 1 30).

(** The engine of the scenarios: removal of the values above the
    threshold, an optimization that changes no error. *)
Definition still_engine : Metashape := engine_of true (fun q => q) max_valid_value.

(** The accuracy held by whatever a computation leaves behind. *)
Definition accuracy_after {A : Type} (chunk_of_value : A -> Chunk) (r : Res A) : Q :=
  match r with
  | Ok a => tiepoint_accuracy (chunk_of_value a)
  | Raise _ c => tiepoint_accuracy c
  end.

(** A hundred valid points, one per track, seen in full by a regular
    camera and by a keyframe, both with a pose. *)
Definition two_camera_chunk : Chunk :=
  {| tiepoint_accuracy := 1;
     points := points_from 0 (repeat 1 100);
     tracks := 100;
     cameras := [ {| cam_type := Regular; transform := true; enabled := true;
                     cam_projections := seq 0 100 |};
                  {| cam_type := Keyframe; transform := true; enabled := true;
                     cam_projections := seq 0 100 |} ] |}.

(** ** runAllSteps (lines 1771-1786) *)

(** The keys of [auto_run_check_boxes], in their order of insertion. *)
Definition auto_run_order : list Step :=
  [Step_ReconstructionUncertainty; Step_ProjectionAccuracy;
   Step_ReprojectionError; Step_RMSE].

(** The loop of runAllSteps over the remaining steps: the chunk, the
    results of the steps run so far, and the exception that ended the
    loop, if any.  The three entries of a checked step are converted
    right before its run. *)
Fixpoint run_steps {engine : Metashape} (steps : list Step)
         (auto_run_check_boxes : Step -> bool) (widgets : Step -> StepWidgets)
         (c : Chunk) (done : list RunResult) : Chunk * list RunResult * option Exn :=
  match steps with
  | [] => (c, done, None)
  | step :: rest =>
      if auto_run_check_boxes step then
        match target_percent_ledit (widgets step),
              target_threshold_ledit (widgets step),
              max_iter_ledit (widgets step) with
        | Some p, Some t, Some m =>
            match executeStep widgets step p t m c with
            | (c', Finished r) =>
                run_steps rest auto_run_check_boxes widgets c' (done ++ [r])
            | (c', Raised e) => (c', done, Some e)
            end
        | _, _, _ => (c, done, Some ValueError)
        end
      else run_steps rest auto_run_check_boxes widgets c done
  end.

Definition runAllSteps {engine : Metashape} (auto_run_check_boxes : Step -> bool)
           (widgets : Step -> StepWidgets) (c : Chunk)
  : Chunk * list RunResult * option Exn :=
  run_steps auto_run_order auto_run_check_boxes widgets c [].

(** ** calcRMS (lines 1032-1077) *)

(** [math.sqrt(x)], kept symbolic. *)
Inductive Root : Type := sqrt_of (radicand : Q).

Module Residuals.

Inductive Result : Type :=
| Value (sigma : Root)
| ZeroDivisionError
| LookupError.                     (* the IndexError of a table lookup *)

Section WithCameraModel.

(** [camera.error(point.coord, proj.coord).norm() ** 2] for the
    projection of the given track. *)
Variable error2 : Camera -> Point -> nat -> Q.

(** The loop over [projections[camera]], carrying [err_sum] and [num]. *)
Fixpoint projection_loop (camera : Camera) (pts : list Point) (point_ids : list Z)
         (projs : list nat) (err_sum : Q) (num : Z) : option (Q * Z) :=
  match projs with
  | [] => Some (err_sum, num)
  | track :: r =>
      match nth_error point_ids track with
      | None => None
      | Some point_id =>
          if (point_id <? 0)%Z then projection_loop camera pts point_ids r err_sum num
          else
            match Py.getitem pts point_id with
            | None => None
            | Some point =>
                if negb (valid point)
                then projection_loop camera pts point_ids r err_sum num
                else projection_loop camera pts point_ids r
                       (err_sum + error2 camera point track) (num + 1)%Z
            end
      end
  end.

(** The loop over [self.chunk.cameras]. *)
Fixpoint camera_loop (pts : list Point) (point_ids : list Z) (cams : list Camera)
         (err_sum : Q) (num : Z) : option (Q * Z) :=
  match cams with
  | [] => Some (err_sum, num)
  | camera :: r =>
      if negb (transform camera) then camera_loop pts point_ids r err_sum num
      else if negb (enabled camera) then camera_loop pts point_ids r err_sum num
      else
        match projection_loop camera pts point_ids (cam_projections camera) err_sum num with
        | None => None
        | Some (err_sum', num') => camera_loop pts point_ids r err_sum' num'
        end
  end.

(** [sigma = math.sqrt(err_sum / num)], with no guard on [num]. *)
Definition calcRMS (c : Chunk) : Result :=
  match fill_point_ids (points c) 0 (repeat (-1)%Z (tracks c)) with
  | None => LookupError
  | Some point_ids =>
      match camera_loop (points c) point_ids (cameras c) 0 0 with
      | None => LookupError
      | Some (err_sum, num) =>
          if (num =? 0)%Z then ZeroDivisionError
          else Value (sqrt_of (err_sum / inject_Z num))
      end
  end.

End WithCameraModel.

End Residuals.

(** ** calcScaleBarErrorControl and calcScaleBarErrorCheck (lines 1594-1656) *)

Module ScaleBars.

Record ScaleBar : Type := {
  distance : option Q;       (* scalebar.reference.distance *)
  reference_enabled : bool;  (* scalebar.reference.enabled *)
  ends_defined : bool;       (* both ends have a center, or a position *)
  dist_estimated : Q         (* distance of the ends times chunk.transform.scale *)
}.

(** The loop of calcScaleBarErrorControl, carrying [s] and [n]. *)
Fixpoint control_loop (scalebars : list ScaleBar) (s : Q) (n : Z) : Q * Z :=
  match scalebars with
  | [] => (s, n)
  | scalebar :: r =>
      if negb (Py.truthy (distance scalebar)) then control_loop r s n
      else if reference_enabled scalebar then
        if negb (ends_defined scalebar) then control_loop r s n
        else
          let dist_source := match distance scalebar with Some d => d | None => 0 end in
          let dist_error := dist_estimated scalebar - dist_source in
          control_loop r (s + dist_error * dist_error) (n + 1)%Z
      else control_loop r s n
  end.

(** The loop of calcScaleBarErrorCheck. *)
Fixpoint check_loop (scalebars : list ScaleBar) (s : Q) (n : Z) : Q * Z :=
  match scalebars with
  | [] => (s, n)
  | scalebar :: r =>
      if negb (Py.truthy (distance scalebar)) then check_loop r s n
      else if negb (reference_enabled scalebar) then
        if negb (ends_defined scalebar) then check_loop r s n
        else
          let dist_source := match distance scalebar with Some d => d | None => 0 end in
          let dist_error := dist_estimated scalebar - dist_source in
          check_loop r (s + dist_error * dist_error) (n + 1)%Z
      else check_loop r s n
  end.

(** [math.sqrt(s/n)] if [n > 0], else [None]. *)
Definition result (sn : Q * Z) : option Root :=
  let (s, n) := sn in
  if (0 <? n)%Z then Some (sqrt_of (s / inject_Z n)) else None.

Definition calcScaleBarErrorControl (scalebars : list ScaleBar) : option Root :=
  result (control_loop scalebars 0 0).

Definition calcScaleBarErrorCheck (scalebars : list ScaleBar) : option Root :=
  result (check_loop scalebars 0 0).

(** A scale bar that enters one of the two statistics: it has a source
    distance other than 0.0 and both ends defined. *)
Definition measured (scalebar : ScaleBar) : bool :=
  Py.truthy (distance scalebar) && ends_defined scalebar.

End ScaleBars.

(** [pts'] is [pts] with some of its points marked invalid. *)
Definition invalidated (pts pts' : list Point) : Prop :=
  Forall2 (fun p p' => track_id p' = track_id p /\ (valid p' = true -> valid p = true))
          pts pts'.

(** ** The report fields (updateTreeEntries, lines 1457-1503) and their
    reading back (setChunkSpecificValues, lines 273-356) *)

Module Report.

Import Ascii.

(** A [str] over code points below 256. *)
Definition text : Type := list ascii.

Definition space : ascii := " ".
Definition minus : ascii := "-".
Definition greater : ascii := ">".
Definition dot : ascii := ".".

(** [c.isspace()]. *)
Definition is_space (c : ascii) : bool :=
  let n := nat_of_ascii c in
  ((9 <=? n) && (n <=? 13)) || ((28 <=? n) && (n <=? 32)) || (n =? 133) || (n =? 160).

(** [s.replace(c, '')] for a single character [c]. *)
Definition remove (c : ascii) (s : text) : text :=
  filter (fun x => negb (Ascii.eqb x c)) s.

(** [s.split()], with the token under construction. *)
Fixpoint split_from (tok : text) (s : text) : list text :=
  match s with
  | [] => match tok with [] => [] | _ => [tok] end
  | c :: r =>
      if is_space c then
        match tok with [] => split_from [] r | _ => tok :: split_from [] r end
      else split_from (tok ++ [c]) r
  end.

Definition split (s : text) : list text := split_from [] s.

(** ['{: <10}'.format(x)] on the text of [x]: left-aligned, padded with
    spaces to the width. *)
Definition ljust (s : text) (width : nat) : text :=
  s ++ repeat space (width - length s).

(** ['{0: <10} ---> {1: <10}'.format(a, b)] on the texts of [a] and [b]. *)
Definition field (a b : text) : text :=
  ljust a 10 ++ [space; minus; minus; minus; greater; space] ++ ljust b 10.

(** The SEUW field: ['{0: <10} ---> {1: <10}.'.format(a, b)]. *)
Definition seuw_field (a b : text) : text := field a b ++ [dot].

(** [text.replace('-','').replace('>', '').split()]. *)
Definition tokens (t : text) : list text :=
  split (remove greater (remove minus t)).

(** [a, b = ...]; [None] is the ValueError of the unpacking. *)
Definition unpack2 (l : list text) : option (text * text) :=
  match l with
  | [a; b] => Some (a, b)
  | _ => None
  end.

(** [a, b, _ = ...]. *)
Definition unpack3 (l : list text) : option (text * text) :=
  match l with
  | [a; b; _] => Some (a, b)
  | _ => None
  end.

(** A text without whitespace. *)
Definition solid (s : text) : Prop := forall c, In c s -> is_space c = false.

(** A text without '-' and '>'. *)
Definition plain (s : text) : Prop := ~ In minus s /\ ~ In greater s.

(** Texts of numbers, for the scenarios: '1e-05', '0.5' and
    '1234.56789'. *)
Definition text_1e_05 : text := ["1"; "e"; "-"; "0"; "5"]%char.
Definition text_0_5 : text := ["0"; "."; "5"]%char.
Definition text_1234_56789 : text :=
  ["1"; "2"; "3"; "4"; "."; "5"; "6"; "7"; "8"; "9"]%char.

End Report.

(** ** The session file (writeChunkMemory2File, lines 895-907, and
    readChunkMemoryFromFile, lines 910-925) *)

Module Memory.

Import Ascii.

(** A dict key: a tab index or a label. *)
Inductive Key : Type :=
| KInt (z : Z)
| KStr (s : String.string).

Definition key_eqb (a b : Key) : bool :=
  match a, b with
  | KInt x, KInt y => (x =? y)%Z
  | KStr s, KStr t => String.eqb s t
  | _, _ => false
  end.

(** A dict, in insertion order. *)
Definition Dict (V : Type) : Type := list (Key * V).

(** [d[k]]; [None] is KeyError. *)
Fixpoint getitem {V : Type} (d : Dict V) (k : Key) : option V :=
  match d with
  | [] => None
  | (k', v) :: r => if key_eqb k' k then Some v else getitem r k
  end.

(** [d[k] = v]. *)
Fixpoint setitem {V : Type} (d : Dict V) (k : Key) (v : V) : Dict V :=
  match d with
  | [] => [(k, v)]
  | (k', v') :: r => if key_eqb k' k then (k', v) :: r else (k', v') :: setitem r k v
  end.

(** [del d[k]]; [None] is KeyError. *)
Fixpoint delitem {V : Type} (d : Dict V) (k : Key) : option (Dict V) :=
  match d with
  | [] => None
  | (k', v) :: r =>
      if key_eqb k' k then Some r
      else option_map (cons (k', v)) (delitem r k)
  end.

Section Conversions.

(** [str(z)] of an int and [int(s)] of a str ([None]: ValueError). *)
Variable str : Z -> String.string.
Variable int : String.string -> option Z.

(** The key json.dump writes for a key. *)
Definition json_key (k : Key) : Key :=
  match k with
  | KInt z => KStr (str z)
  | KStr s => KStr s
  end.

(** What json.load reads back from the pairs json.dump wrote for a dict,
    the values going through [json_value]. *)
Fixpoint json_load {V W : Type} (json_value : V -> W) (pairs : list (Key * V))
         (d : Dict W) : Dict W :=
  match pairs with
  | [] => d
  | (k, v) :: r => json_load json_value r (setitem d (json_key k) (json_value v))
  end.

Definition json_dict {V W : Type} (json_value : V -> W) (d : Dict V) : Dict W :=
  json_load json_value d [].

(** [chunk_memory] after json.dump and json.load: chunk label, then
    'tab_settings' or 'tree_results', then tab index. *)
Definition json_memory {V : Type} (mem : Dict (Dict (Dict V))) : Dict (Dict (Dict V)) :=
  json_dict (json_dict (json_dict (fun v => v))) mem.

(** [int(key)]. *)
Definition int_of_key (k : Key) : option Z :=
  match k with
  | KInt z => Some z
  | KStr s => int s
  end.

(** [for key in mem[ch][kind].keys():
       new_mem[ch][kind][int(key)] = mem[ch][kind][key]
       del new_mem[ch][kind][key]]. *)
Fixpoint convert_keys {V : Type} (keys : list Key) (mem new_mem : Dict V)
  : option (Dict V) :=
  match keys with
  | [] => Some new_mem
  | key :: r =>
      match getitem mem key, int_of_key key with
      | Some v, Some z =>
          match delitem (setitem new_mem (KInt z) v) key with
          | Some new_mem' => convert_keys r mem new_mem'
          | None => None
          end
      | _, _ => None
      end
  end.

Definition convert_dict {V : Type} (d : Dict V) : option (Dict V) :=
  convert_keys (map fst d) d d.

(** The same over the values of a dict, in its order. *)
Fixpoint convert_values {V : Type} (convert : V -> option V) (d : Dict V)
  : option (Dict V) :=
  match d with
  | [] => Some []
  | (k, v) :: r =>
      match convert v, convert_values convert r with
      | Some v', Some r' => Some ((k, v') :: r')
      | _, _ => None
      end
  end.

(** Lines 918-925: the keys of the innermost dicts turned into ints. *)
Definition readChunkMemory {V : Type} (mem : Dict (Dict (Dict V)))
  : option (Dict (Dict (Dict V))) :=
  convert_values (convert_values convert_dict) mem.

End Conversions.

(** All keys are tab indices (ints), or all are labels (strs). *)
Definition int_keys {V : Type} (d : Dict V) : Prop :=
  forall k, In k (map fst d) -> exists z, k = KInt z.

Definition str_keys {V : Type} (d : Dict V) : Prop :=
  forall k, In k (map fst d) -> exists s, k = KStr s.

(** The shape of [chunk_memory]: no key twice in a dict, labels on the
    two outer levels, tab indices on the inner one. *)
Definition well_formed {V : Type} (mem : Dict (Dict (Dict V))) : Prop :=
  NoDup (map fst mem) /\ str_keys mem /\
  forall ch kinds, In (ch, kinds) mem ->
    NoDup (map fst kinds) /\ str_keys kinds /\
    forall kind d, In (kind, d) kinds -> NoDup (map fst d) /\ int_keys d.

(** The decimal text of an int, and a reader of such texts. *)
Definition decimal_str (z : Z) : String.string :=
  DecimalString.NilZero.string_of_int (Z.to_int z).

Definition decimal_int (s : String.string) : option Z :=
  option_map Z.of_int (DecimalString.NilZero.int_of_string s).

(** A memory of one chunk with two tabs of settings and one of results. *)
Definition sample_memory : Dict (Dict (Dict Q)) :=
  [(KStr (String.String "c" String.EmptyString),
    [(KStr (String.String "s" String.EmptyString), [(KInt 0, 50); (KInt 1, 10)]);
     (KStr (String.String "r" String.EmptyString), [(KInt 0, 3)])])].

End Memory.

(** A point on track 5 in a chunk with a single track. *)
Definition stray_track_chunk : Chunk :=
  {| tiepoint_accuracy := 1; points := points_from 5 [1]; tracks := 1; cameras := [] |}.

(** The entries of [widgets_of], except for one step whose
    target_percent entry is not a number. *)
Definition widgets_with_bad_percent (bad : Step) (p t m a : option Q)
  : Step -> StepWidgets :=
  fun step =>
    if (if is_rmse bad then is_rmse step
        else match bad, step with
             | Step_ReconstructionUncertainty, Step_ReconstructionUncertainty => true
             | Step_ProjectionAccuracy, Step_ProjectionAccuracy => true
             | Step_ReprojectionError, Step_ReprojectionError => true
             | _, _ => false
             end)
    then widgets_of None t m a step
    else widgets_of p t m a step.

(** * Theorems *)

(** ** Python primitives *)

Lemma int_Qeq (x y : Q) : x == y -> Py.int x = Py.int y.
Proof.
  unfold Qeq, Py.int. intros H.
  rewrite <- (Z.quot_mul_cancel_r (Qnum x) (Zpos (Qden x)) (Zpos (Qden y))) by discriminate.
  rewrite <- (Z.quot_mul_cancel_r (Qnum y) (Zpos (Qden y)) (Zpos (Qden x))) by discriminate.
  rewrite H. f_equal. apply Z.mul_comm.
Qed.

Lemma int_inject_Z (z : Z) : Py.int (inject_Z z) = z.
Proof. unfold Py.int. simpl. apply Z.quot_1_r. Qed.

Lemma int_nonneg_floor (x : Q) : 0 <= x -> Py.int x = Qfloor x.
Proof.
  destruct x as [n d]. unfold Qle, Py.int, Qfloor. simpl. intros H.
  apply Z.quot_div_nonneg; lia.
Qed.

Lemma getitem_length {A : Type} (l : list A) :
  Py.getitem l (Z.of_nat (length l)) = None.
Proof.
  unfold Py.getitem.
  destruct (Z.leb_spec 0 (Z.of_nat (length l))) as [_|H]; [|lia].
  rewrite Nat2Z.id. apply nth_error_None. lia.
Qed.

Lemma lt_false_le (x y : Q) : Py.lt x y = false <-> y <= x.
Proof.
  unfold Py.lt. rewrite negb_false_iff. apply Qle_bool_iff.
Qed.

Lemma lt_true_lt (x y : Q) : Py.lt x y = true <-> x < y.
Proof.
  unfold Py.lt. rewrite negb_true_iff. split.
  - intros H. apply Qnot_le_lt. intros C. apply Qle_bool_iff in C. congruence.
  - intros H. destruct (Qle_bool y x) eqn:E; [|reflexivity].
    apply Qle_bool_iff in E. exfalso. exact (Qlt_not_le _ _ H E).
Qed.

Lemma reversed_range_cons (a b : Z) :
  (a < b)%Z -> Py.reversed_range a b = (b - 1)%Z :: Py.reversed_range a (b - 1).
Proof.
  intros H. unfold Py.reversed_range.
  replace (Z.to_nat (b - a)) with (S (Z.to_nat (b - 1 - a))) by lia.
  rewrite <- cons_seq, <- seq_shift, map_cons, map_map. f_equal.
  - simpl. lia.
  - apply map_ext. intros i. lia.
Qed.

Lemma reversed_range_nil (a b : Z) : (b <= a)%Z -> Py.reversed_range a b = [].
Proof.
  intros H. unfold Py.reversed_range.
  replace (Z.to_nat (b - a)) with O by lia. reflexivity.
Qed.

(** ** The percentile-descent search *)



(** In exact arithmetic the back-off index of candidate k is the index
    the scan read at candidate k+1. *)
Lemma backoff_is_previous_target (D : list Q) (k : Z) :
  backoff_target D (fraction k) = scan_target D (fraction (k + 1)).
Proof.
  unfold backoff_target, scan_target, fraction. apply int_Qeq.
  rewrite inject_Z_plus. unfold mfac. field.
Qed.

Lemma scan_target_top (D : list Q) :
  scan_target D (fraction (100 * mfac)) = Z.of_nat (length D).
Proof.
  unfold scan_target, Py.len.
  rewrite <- (int_inject_Z (Z.of_nat (length D))) at 2. apply int_Qeq.
  unfold fraction, mfac. simpl inject_Z at 2 3. field.
Qed.

(** Without an overrun, a scan over consecutive descending candidates
    keeps the threshold at or above the target. *)
Lemma scan_floor (D : list Q) (t : Q) (a : Z) :
  forall (n : nat) (b : Z) th0 fin0 th fin',
    Z.of_nat n = (b - a)%Z ->
    (forall q, Py.getitem D (scan_target D (fraction b)) = Some q -> Py.lt q t = false) ->
    (forall q, th0 = Some q -> Py.lt q t = false) ->
    overrun D t (Py.reversed_range a b) = false ->
    scan D t (Py.reversed_range a b) th0 fin0 = inr (Some th, fin') ->
    Py.lt th t = false.
Proof.
  induction n as [|n IH]; intros b th0 fin0 th fin' Hn Hprev H0 Ho Hs.
  - rewrite reversed_range_nil in Hs by lia. simpl in Hs.
    apply H0. congruence.
  - rewrite reversed_range_cons in Hs, Ho by lia. simpl in Hs, Ho.
    destruct (Py.getitem D (scan_target D (fraction (b - 1)))) as [q|] eqn:Eq;
      [|discriminate].
    destruct (Py.lt q t) eqn:Elt.
    + rewrite backoff_is_previous_target in Hs, Ho.
      replace (b - 1 + 1)%Z with b in Hs, Ho by lia.
      destruct (Py.getitem D (scan_target D (fraction b))) as [q'|] eqn:Eq';
        [|discriminate].
      inversion Hs; subst. now apply Hprev.
    + eapply IH with (b := (b - 1)%Z) (th0 := Some q) (fin0 := fin0);
        try eassumption; try lia.
      * intros q' Hq'. congruence.
      * intros q' Hq'. congruence.
Qed.

(** The search as designed: when the scan does not overrun, whatever
    threshold it returns is at or above the target. *)
Lemma percentile_descent_floor (D : list Q) (p t : Q) (th : Q) (fin' : bool) :
  overrun D t (scan_range p) = false ->
  percentile_descent D p t None false = inr (Some th, fin') ->
  t <= th.
Proof.
  unfold percentile_descent, scan_range. intros Ho Hs.
  apply lt_false_le.
  set (a := (100 * mfac - Py.int p * mfac)%Z) in *.
  destruct (Z.le_gt_cases (100 * mfac) a) as [Hle|Hgt].
  - rewrite reversed_range_nil in Hs by exact Hle. discriminate.
  - eapply scan_floor with (a := a) (n := Z.to_nat (100 * mfac - a)) (b := (100 * mfac)%Z);
      try eassumption; try lia.
    + intros q Hq. rewrite scan_target_top, getitem_length in Hq. discriminate.
    + discriminate.
Qed.

(** The scan index in integer arithmetic. *)
Lemma scan_target_quot (D : list Q) (k : Z) :
  scan_target D (fraction k) = (Z.of_nat (length D) * k ÷ 10000)%Z.
Proof.
  unfold scan_target, fraction, Py.len, mfac.
  rewrite (int_Qeq (y := (Z.of_nat (length D) * k)%Z # 10000)).
  - reflexivity.
  - unfold Qeq. simpl. lia.
Qed.

Lemma scan_target_in_range (D : list Q) (k : Z) :
  D <> [] -> (0 <= k < 10000)%Z ->
  (0 <= scan_target D (fraction k) < Z.of_nat (length D))%Z.
Proof.
  intros HD Hk. rewrite scan_target_quot.
  assert (0 < Z.of_nat (length D))%Z by (destruct D; [congruence|simpl; lia]).
  split.
  - apply Z.quot_pos; nia.
  - apply Z.quot_lt_upper_bound; nia.
Qed.

Lemma getitem_in_range {A : Type} (l : list A) (i : Z) :
  (0 <= i < Z.of_nat (length l))%Z -> exists x, Py.getitem l i = Some x /\ In x l.
Proof.
  intros Hi. unfold Py.getitem.
  destruct (Z.leb_spec 0 i); [|lia].
  destruct (nth_error l (Z.to_nat i)) as [x|] eqn:E.
  - exists x. split; [reflexivity|]. eapply nth_error_In; eauto.
  - apply nth_error_None in E. lia.
Qed.

Lemma below_target_lt (D : list Q) (t : Q) (i : Z) (x : Q) :
  Forall (fun q => q < t) D -> Py.getitem D i = Some x -> Py.lt x t = true.
Proof.
  intros HF H. apply lt_true_lt.
  assert (In x D).
  { unfold Py.getitem in H.
    destruct (0 <=? i)%Z; [eapply nth_error_In; eauto|].
    destruct (- Z.of_nat (length D) <=? i)%Z; [eapply nth_error_In; eauto|discriminate]. }
  rewrite Forall_forall in HF. auto.
Qed.

(** The search on a distribution that lies entirely below the target:
    with target_percent at least 1 the first candidate overruns, and the
    search returns a value below the target with [fin] set, never the
    sentinel of the [except] branch. *)
Lemma overrun_returns_below_target (D : list Q) (p t : Q) (th0 : option Q) (fin0 : bool) :
  D <> [] -> Forall (fun q => q < t) D -> (1 <= Py.int p)%Z ->
  overrun D t (scan_range p) = true /\
  exists q, percentile_descent D p t th0 fin0 = inr (Some q, true) /\ q < t.
Proof.
  intros HD HF Hp. unfold percentile_descent, scan_range, mfac.
  rewrite reversed_range_cons by lia.
  rewrite (@reversed_range_cons (100 * 100 - Py.int p * 100)%Z (100 * 100 - 1)%Z) by lia.
  replace (100 * 100 - 1)%Z with 9999%Z by reflexivity.
  replace (9999 - 1)%Z with 9998%Z by reflexivity.
  assert (R1 : (0 <= scan_target D (fraction 9999) < Z.of_nat (length D))%Z)
    by (apply scan_target_in_range; [exact HD|lia]).
  assert (R2 : (0 <= scan_target D (fraction 9998) < Z.of_nat (length D))%Z)
    by (apply scan_target_in_range; [exact HD|lia]).
  apply getitem_in_range in R1. destruct R1 as (q1 & E1 & _).
  apply getitem_in_range in R2. destruct R2 as (q2 & E2 & _).
  assert (B1 : Py.getitem D (backoff_target D (fraction 9999)) = None).
  { rewrite backoff_is_previous_target. change (9999 + 1)%Z with (100 * mfac)%Z.
    rewrite scan_target_top. apply getitem_length. }
  assert (B2 : Py.getitem D (backoff_target D (fraction 9998)) = Some q1).
  { rewrite backoff_is_previous_target. exact E1. }
  assert (L1 : Py.lt q1 t = true) by (eapply below_target_lt; eauto).
  assert (L2 : Py.lt q2 t = true) by (eapply below_target_lt; eauto).
  split.
  - cbn [overrun]. rewrite E1, L1, B1. reflexivity.
  - exists q1. cbn [scan]. rewrite E1, L1, B1, E2, L2, B2.
    split; [reflexivity|]. apply lt_true_lt. exact L1.
Qed.

(** C1.  The claim: the percentile-descent search never returns a
    threshold below target_threshold, and returns the no-threshold
    sentinel when no index at or above the target exists.  On the
    distribution [1, 2, 3] with target_percent 20 and target_threshold 5
    the back-off index of the first candidate is past the end; the
    [except] branch sets the sentinel but does not leave the loop, and the
    next candidate returns 3, a value below 5, with [fin] set. *)
Theorem descent_overrun_returns_below_target :
  overrun one_to_three 5 (scan_range 20) = true /\
  percentile_descent one_to_three 20 5 None false = inr (Some 3, true) /\
  3 < 5.
Proof.
  split; [|split].
  - vm_compute. reflexivity.
  - vm_compute. reflexivity.
  - reflexivity.
Qed.

(** C3, as stated: on [1..10] with target_percent 20 and
    target_threshold 5 the search does not select a threshold equal to 8. *)
Lemma scenario_threshold_is_not_8 :
  ~ exists th fin', percentile_descent one_to_ten 20 5 None false = inr (Some th, fin')
                    /\ th == 8.
Proof.
  intros (th & fin' & H & E).
  vm_compute in H. inversion H; subst. discriminate E.
Qed.

(** C3, amended: on [1..10] with target_percent 20 and target_threshold 5
    no scanned value is below 5, the scan runs to its last candidate
    n = 80.00, whose index is 8 = floor(10 * 80 / 100), and the threshold
    selected is the value at that index, 9. *)
Theorem scenario_threshold_is_9 :
  percentile_descent one_to_ten 20 5 None false = inr (Some 9, false) /\
  last (scan_range 20) 0%Z = 8000%Z /\
  scan_target one_to_ten (fraction 8000) = 8%Z /\
  Py.getitem one_to_ten 8 = Some 9.
Proof.
  repeat split; vm_compute; reflexivity.
Qed.

(** ** The sampled distribution *)

Lemma valid_values_filter_init (criterion : Criterion) (c : Chunk) :
  valid_values (filter_init criterion c) (points c)
  = Some (valid_error_values criterion c).
Proof.
  unfold filter_init, valid_error_values.
  induction (points c) as [|p ps IH]; simpl.
  - reflexivity.
  - rewrite IH. destruct (valid p); reflexivity.
Qed.

Lemma sample_head (criterion : Criterion) (c : Chunk) :
  sample (filter_init criterion c) (points c)
  = Some (QSort.sort (valid_error_values criterion c)).
Proof. unfold sample. now rewrite valid_values_filter_init. Qed.

Lemma sort_ascending (l : list Q) : LocallySorted Qle (QSort.sort l).
Proof.
  pose proof (QSort.LocallySorted_sort l) as H.
  induction H as [| |a b r H IH Hab]; constructor; auto.
  apply Qle_bool_iff. exact Hab.
Qed.

(** The distribution sampled at the head of a pass holds exactly the
    error values of the currently valid points, in ascending order. *)
Lemma head_distribution_exact (criterion : Criterion) (c : Chunk) :
  exists D, sample (filter_init criterion c) (points c) = Some D /\
            LocallySorted Qle D /\
            Permutation (valid_error_values criterion c) D.
Proof.
  exists (QSort.sort (valid_error_values criterion c)). split; [|split].
  - apply sample_head.
  - apply sort_ascending.
  - apply QSort.Permuted_sort.
Qed.

(** With [fin] false the filter is not created anew: the re-sampling
    reads the values the filter took at its [init], before removal and
    optimization. *)
Lemma recheck_keeps_filter (step : Step) (t : Q) (c : Chunk) (f : list Q) :
  recheck step t c f false = Ok (f, false).
Proof. reflexivity. Qed.

(** So does the re-sampled one when the filter was created anew. *)
Lemma fresh_resample_exact (criterion : Criterion) (c : Chunk) :
  exists D, resample c (filter_init criterion c) = Ok D /\
            LocallySorted Qle D /\
            Permutation (valid_error_values criterion c) D.
Proof.
  destruct (head_distribution_exact criterion c) as (D & H & Hs & Hp).
  exists D. unfold resample. rewrite H. auto.
Qed.

(** C4.  The claim: the distribution used for the above-threshold count,
    re-sampled after removal and re-optimization, holds exactly the error
    values of the currently valid points.  Ten points with errors 1..10,
    step 'Reprojection Error', target_percent 20, target_threshold 5, an
    engine that removes values above the threshold and whose optimization
    halves every error: the search ends with [fin] false, so the filter is
    not created anew, and the re-sampled distribution is [1..9], the
    values from before the optimization; the current values are
    [1/2..9/2].  The pass records 4 points above the target where none
    is. *)
Theorem resample_reads_stale_values :
  let E := engine_of true (fun q => q / 2) max_valid_value in
  let flags := flags_of no_boxes in
  let c := chunk_of 1 one_to_ten in
  let f := filter_init ReprojectionError c in
  let c2 := optimizeCameras (Metashape := E) flags (removePoints (Metashape := E) f 9 c) in
  let stale := map inject_Z [1; 2; 3; 4; 5; 6; 7; 8; 9]%Z in
  search (engine := E) Step_ReprojectionError 20 5 c one_to_ten None false
    = inr (Some 9, false) /\
  recheck Step_ReprojectionError 5 c2 f false = Ok (f, false) /\
  resample c2 f = Ok stale /\
  valid_error_values ReprojectionError c2 = map (fun q => q / 2) stale /\
  count_above 5 (valid_error_values ReprojectionError c2) = 0%Z /\
  iteration (engine := E) Step_ReprojectionError 20 5 flags 0 (initial c)
    = Ok ({| chunk := c2; fin := true; threshold := Some 9; npoint_list := [4%Z] |}, f).
Proof.
  repeat split; vm_compute; reflexivity.
Qed.

(** ** One pass of the loop *)

Lemma rmse_check_percentile {engine : Metashape} (step : Step) (t : Q) (v : Vars) (f : list Q) :
  is_rmse step = false -> rmse_check step t v f = (v, f).
Proof. unfold rmse_check. now intros ->. Qed.





Lemma max_none (l : list Q) : Py.max l = None <-> l = [].
Proof.
  destruct l as [|x r]; simpl.
  - tauto.
  - destruct (Py.max r); split; discriminate.
Qed.

(** ** The RMSE-target variant *)






(** ** The overrun of the back-off step *)





(** ** Reversal diagnostics of a finished run *)

Lemma length_differences (l : list Z) :
  length (differences l) = pred (length l).
Proof.
  induction l as [|a [|b r] IH]; try reflexivity.
  change (differences (a :: b :: r)) with ((b - a)%Z :: differences (b :: r)).
  simpl length in *. now rewrite IH.
Qed.

Lemma n_reverse_bound (l : list Z) (n : Z) :
  (0 <= n)%Z -> (Z.of_nat (length l) <= n + 1)%Z -> (n_reverse_of l <= n)%Z.
Proof.
  intros Hn Hl. unfold n_reverse_of, reversals.
  pose proof (filter_length_le (fun d => (0 <=? d)%Z) (differences l)) as H.
  rewrite length_differences in H. lia.
Qed.

Lemma report_finished (reached : bool) (it : Z) (v : Vars) (f : list Q)
      (c' : Chunk) (r : RunResult) :
  report reached it v f = (c', Finished r) ->
  N_iter r = (it + 1)%Z /\ converged r = reached /\ history r = npoint_list v /\
  n_reverse r = n_reverse_of (history r) /\
  sum_positive_diff r = sum_positive_diff_of (history r).
Proof.
  unfold report. destruct (Py.max f); [|discriminate].
  intros H. inversion H; subst. simpl. auto.
Qed.

(** A pass appends at most one count to the history. *)
Lemma iteration_history_grows {engine : Metashape} (step : Step) (p t : Q)
      (flags : FitFlags) (it : Z) (v v' : Vars) (f' : list Q) :
  iteration step p t flags it v = Ok (v', f') ->
  (length (npoint_list v') <= S (length (npoint_list v)))%nat.
Proof.
  unfold iteration. rewrite sample_head.
  destruct (if (it =? 0)%Z then _ else _) as [m|]; [|discriminate].
  destruct (search _ _ _ _ _ _ _) as [e|[th fin1]]; [discriminate|].
  assert (Hc : forall v2 f2, npoint_list (fst (rmse_check step t v2 f2)) = npoint_list v2).
  { intros v2 f2. unfold rmse_check. destruct (is_rmse step); reflexivity. }
  assert (Hskip : forall w f0,
             w = {| chunk := chunk v; fin := fin1; threshold := th;
                    npoint_list := npoint_list v |} ->
             Ok (rmse_check step t w f0) = Ok (v', f') ->
             (length (npoint_list v') <= S (length (npoint_list v)))%nat).
  { intros w f0 -> H. inversion H as [E].
    pose proof (Hc {| chunk := chunk v; fin := fin1; threshold := th;
                      npoint_list := npoint_list v |} f0) as Hn.
    rewrite E in Hn. simpl in Hn. rewrite Hn. lia. }
  destruct th as [q|]; [destruct (Py.truthy (Some q))|]; cbn [bind];
    try (now apply Hskip).
  unfold refine, bind.
  destruct (recheck _ _ _ _ _) as [[f1 fin2]|e c]; [|discriminate].
  destruct (resample _ _) as [D'|e c]; [|discriminate].
  destruct (negb (is_rmse step)); intros H; inversion H as [E];
    match goal with
    | |- context [npoint_list v'] =>
        match type of E with
        | rmse_check _ _ ?w ?g = _ =>
            pose proof (Hc w g) as Hn; rewrite E in Hn; simpl in Hn; rewrite Hn
        end
    end.
  - rewrite length_app. simpl. lia.
  - lia.
Qed.

Lemma loop_reversal_bound {engine : Metashape} (step : Step) (p t max_iter : Q)
      (flags : FitFlags) (n : nat) :
  forall (a : nat) (last_it : option Z) (v : Vars) (c' : Chunk) (r : RunResult),
    (length (npoint_list v) <= a)%nat ->
    (forall it, last_it = Some it -> it = (Z.of_nat a - 1)%Z /\ (1 <= a)%nat) ->
    loop step p t max_iter flags (map Z.of_nat (seq a n)) last_it v = (c', Finished r) ->
    (n_reverse r <= N_iter r - 1)%Z /\
    n_reverse r = n_reverse_of (history r) /\
    sum_positive_diff r = sum_positive_diff_of (history r).
Proof.
  induction n as [|n IH]; intros a last_it v c' r Hlen Hlast Hrun.
  - cbn [seq map loop] in Hrun. unfold after_loop in Hrun.
    destruct last_it as [it|]; [|discriminate].
    destruct (Hlast it eq_refl) as [-> Ha].
    destruct (Qeq_bool _ _ && negb (fin v)); [|discriminate].
    destruct (report_finished _ _ _ _ Hrun) as (HN & _ & Hh & Hr & Hsum).
    split; [|auto]. rewrite Hr, HN, Hh.
    replace (Z.of_nat a - 1 + 1 - 1)%Z with (Z.of_nat a - 1)%Z by lia.
    apply n_reverse_bound; lia.
  - cbn [seq map loop] in Hrun.
    destruct (iteration step p t flags (Z.of_nat a) v) as [[v' f']|e c] eqn:Hit;
      [|discriminate].
    pose proof (iteration_history_grows _ _ _ _ _ _ Hit) as Hg.
    destruct (fin v').
    + destruct (report_finished _ _ _ _ Hrun) as (HN & _ & Hh & Hr & Hsum).
      split; [|auto]. rewrite Hr, HN, Hh.
      replace (Z.of_nat a + 1 - 1)%Z with (Z.of_nat a) by lia.
      apply n_reverse_bound; lia.
    + eapply (IH (S a)); [| |exact Hrun].
      * lia.
      * intros it E. inversion E. split; lia.
Qed.


(** ** The tie point accuracy of the chunk *)

Section Accuracy.

Context {engine : Metashape}.

Hypothesis removal_keeps_accuracy :
  forall values th c, tiepoint_accuracy (removePoints values th c) = tiepoint_accuracy c.
Hypothesis optimization_keeps_accuracy :
  forall fl c, tiepoint_accuracy (optimizeCameras fl c) = tiepoint_accuracy c.

Variables (step : Step) (p t max_iter : Q) (flags : FitFlags).

Lemma refine_keeps_accuracy (th : Q) (f : list Q) (v : Vars) :
  accuracy_after (fun x => chunk (fst x)) (refine step t flags th f v)
  = tiepoint_accuracy (chunk v).
Proof.
  unfold refine, recheck, resample, bind.
  set (c2 := optimizeCameras flags (removePoints f th (chunk v))).
  assert (H2 : tiepoint_accuracy c2 = tiepoint_accuracy (chunk v)).
  { unfold c2. now rewrite optimization_keeps_accuracy, removal_keeps_accuracy. }
  destruct (fin v).
  - destruct (Py.max _); [|exact H2].
    destruct (sample _ _); [|exact H2].
    destruct (negb (is_rmse step)); exact H2.
  - destruct (sample _ _); [|exact H2].
    destruct (negb (is_rmse step)); exact H2.
Qed.

Lemma iteration_keeps_accuracy (it : Z) (v : Vars) :
  accuracy_after (fun x => chunk (fst x)) (iteration step p t flags it v)
  = tiepoint_accuracy (chunk v).
Proof.
  unfold iteration. rewrite sample_head.
  destruct (if (it =? 0)%Z then _ else _) as [m|]; [|reflexivity].
  destruct (search _ _ _ _ _ _ _) as [e|[th fin1]]; [reflexivity|].
  assert (Hc : forall v2 f2, chunk (fst (rmse_check step t v2 f2)) = chunk v2).
  { intros v2 f2. unfold rmse_check. destruct (is_rmse step); reflexivity. }
  destruct th as [q|]; [destruct (Py.truthy (Some q))|]; cbn [bind accuracy_after];
    try (rewrite Hc; reflexivity).
  pose proof (refine_keeps_accuracy q (filter_init (criteria step) (chunk v))
                {| chunk := chunk v; fin := fin1; threshold := Some q;
                   npoint_list := npoint_list v |}) as Hr.
  destruct (refine _ _ _ _ _ _) as [[v2 f2]|e c]; cbn [bind accuracy_after] in *.
  - rewrite Hc. exact Hr.
  - exact Hr.
Qed.

Lemma report_keeps_chunk (reached : bool) (it : Z) (v : Vars) (f : list Q) :
  fst (report reached it v f) = chunk v.
Proof. unfold report. destruct (Py.max f); reflexivity. Qed.

Lemma loop_keeps_accuracy (its : list Z) :
  forall (last_it : option Z) (v : Vars),
    tiepoint_accuracy (fst (loop step p t max_iter flags its last_it v))
    = tiepoint_accuracy (chunk v).
Proof.
  induction its as [|it its IH]; intros last_it v; cbn [loop].
  - unfold after_loop. destruct last_it as [it|]; [|reflexivity].
    destruct (Qeq_bool _ _ && negb (fin v)); [|reflexivity].
    now rewrite report_keeps_chunk.
  - pose proof (iteration_keeps_accuracy it v) as Hi.
    destruct (iteration step p t flags it v) as [[v' f']|e c];
      cbn [accuracy_after fst] in Hi.
    + destruct (fin v').
      * now rewrite report_keeps_chunk.
      * now rewrite IH.
    + exact Hi.
Qed.

End Accuracy.

(** C10.  With an engine whose removal and optimization leave the
    chunk's tie point accuracy alone, executeStep leaves the chunk with the
    accuracy entered for the step, whatever the chunk held before and
    however the run ends (converged, out of passes, or by an exception
    raised after line 1148); the value saved in
    [initial_tiepoint_accuracy] is never read. *)
Theorem tiepoint_accuracy_overwritten {engine : Metashape}
        (widgets : Step -> StepWidgets) (step : Step) (p t max_iter : Q)
        (c : Chunk) (a : Q) :
  (forall values th c0, tiepoint_accuracy (removePoints values th c0) = tiepoint_accuracy c0) ->
  (forall fl c0, tiepoint_accuracy (optimizeCameras fl c0) = tiepoint_accuracy c0) ->
  tiepoint_ledit (widgets step) = Some a ->
  tiepoint_accuracy (fst (executeStep widgets step p t max_iter c)) = a.
Proof.
  intros Hrem Hopt Ha. unfold executeStep. rewrite Ha.
  rewrite loop_keeps_accuracy by assumption. reflexivity.
Qed.

(** ** Validation of the configuration *)

(** C8, as stated: an out-of-range max_iterations would be rejected
    before any mutation.  With max_iter 0 the run ends in a NameError
    ([it] is unbound after the loop) and the chunk's tie point accuracy
    has already been changed from 1 to 1/2. *)
Lemma out_of_range_max_iter_mutates_first :
  let E := engine_of true (fun q => q) max_valid_value in
  let c := chunk_of 1 one_to_ten in
  let W := widgets_of (Some 20) (Some 5) (Some 0) (Some (1 # 2)) in
  runButtonClicked (engine := E) true W Step_ReprojectionError c
  = (set_tiepoint_accuracy (1 # 2) c, Some (Raised NameError)) /\
  tiepoint_accuracy c = 1 /\
  tiepoint_accuracy (set_tiepoint_accuracy (1 # 2) c) = 1 # 2.
Proof.
  repeat split.
Qed.

(** C8, amended.  When target_percent, target_threshold or
    max_iterations is not numeric, [runButtonClicked] raises the
    ValueError of the float conversion before executeStep is entered: the
    chunk is handed back as it was (no point marked invalid, no camera
    optimization, no field modified).  Ranges are not checked. *)
Theorem non_numeric_rejected_before_mutation {engine : Metashape}
        (widgets : Step -> StepWidgets) (step : Step) (c : Chunk) :
  target_percent_ledit (widgets step) = None \/
  target_threshold_ledit (widgets step) = None \/
  max_iter_ledit (widgets step) = None ->
  runButtonClicked true widgets step c = (c, Some (Raised ValueError)).
Proof.
  unfold runButtonClicked. cbn [negb].
  intros [H|[H|H]];
    destruct (target_percent_ledit (widgets step)) as [q1|]; try reflexivity;
    try discriminate;
    destruct (target_threshold_ledit (widgets step)) as [q2|]; try reflexivity;
    try discriminate;
    destruct (max_iter_ledit (widgets step)) as [q3|]; try reflexivity;
    discriminate.
Qed.

(** ** The low-projection camera count *)

Lemma camera_loop_counts (pts : list Point) (point_ids : list Z) (cams : list Camera) :
  forall sums with_proj sums' with_proj',
    camera_loop pts point_ids cams sums with_proj = Some (sums', with_proj') ->
    sums' = (sums + Z.of_nat (length (filter
               (fun camera => negb (is_keyframe camera) && transform camera
                              && few_projections pts point_ids camera) cams)))%Z /\
    with_proj' = (with_proj + Z.of_nat (length (filter
               (fun camera => negb (is_keyframe camera) && transform camera) cams)))%Z.
Proof.
  induction cams as [|camera cams IH]; intros sums w sums' w' H; cbn [camera_loop] in H.
  - inversion H. simpl. lia.
  - cbn [filter]. unfold is_keyframe, few_projections in *.
    destruct (cam_type camera); cbn [negb andb].
    + destruct (transform camera); cbn [negb andb] in *.
      * destruct (count_projections pts point_ids (cam_projections camera) 0)
          as [n|]; [|discriminate].
        apply IH in H. destruct H as [-> ->].
        destruct (n <? 100)%Z; cbn [length]; lia.
      * apply IH in H. exact H.
    + apply IH in H. exact H.
Qed.

Lemma cameras_partition (cams : list Camera) :
  length cams
  = (length (filter is_keyframe cams)
     + length (filter (fun camera => negb (is_keyframe camera) && transform camera) cams)
     + length (filter (fun camera => negb (is_keyframe camera) && negb (transform camera)) cams))%nat.
Proof.
  induction cams as [|camera cams IH]; [reflexivity|].
  cbn [filter length]. destruct (is_keyframe camera), (transform camera);
    cbn [negb andb length]; lia.
Qed.

(** What the code returns: the count the specification words, and one
    more for every keyframe. *)
Lemma low_projection_count_adds_keyframes (c : Chunk) (n : Z) :
  getNumProjectionsLowerThan c = Some n ->
  exists point_ids,
    fill_point_ids (points c) 0 (repeat (-1)%Z (tracks c)) = Some point_ids /\
    n = (low_projection_count_spec c point_ids
         + Z.of_nat (length (filter is_keyframe (cameras c))))%Z.
Proof.
  unfold getNumProjectionsLowerThan.
  destruct (fill_point_ids _ _ _) as [ids|]; [|discriminate].
  destruct (camera_loop _ _ _ _ _) as [[sums w]|] eqn:E; [|discriminate].
  intros H. inversion H; subst; clear H.
  apply camera_loop_counts in E. destruct E as [-> ->].
  exists ids. split; [reflexivity|].
  unfold low_projection_count_spec. rewrite (cameras_partition (cameras c)). lia.
Qed.

(** C9.  The claim: keyframes are left out of the low-projection count
    entirely.  With a regular camera and a keyframe, both posed and each
    with 100 projections onto valid points, no camera is low on
    projections, and the count as the specification words it is 0; the
    code returns 1: the keyframe is skipped in the loop and then counted
    by [len(chunk.cameras) - cameras_with_proj]. *)
Theorem keyframe_counted_as_low_projection :
  getNumProjectionsLowerThan two_camera_chunk = Some 1%Z /\
  (exists point_ids,
      fill_point_ids (points two_camera_chunk) 0 (repeat (-1)%Z (tracks two_camera_chunk))
      = Some point_ids /\
      low_projection_count_spec two_camera_chunk point_ids = 0%Z /\
      map (few_projections (points two_camera_chunk) point_ids) (cameras two_camera_chunk)
      = [false; false]).
Proof.
  split; [vm_compute; reflexivity|].
  eexists. split; [vm_compute; reflexivity|].
  split; vm_compute; reflexivity.
Qed.

(** ** Exact and binary64 indices at the scenarios *)

(** For the distributions of the scenarios (1, 3 and 10 values) and
    target_percent 20, every index the search computes in binary64 is the
    index of the exact computation. *)
Lemma scenario_indices_in_binary64 :
  forallb
    (fun D : list Q =>
       let len := Z.of_nat (length D) in
       forallb
         (fun k =>
            (Binary64.scan_target len k =? scan_target D (fraction k))%Z
            && (Binary64.backoff_target len k =? backoff_target D (fraction k))%Z)
         (scan_range 20)
       && (Binary64.rmse_target len 20 =? rmse_target D 20)%Z)
    [[0]; one_to_three; one_to_ten] = true.
Proof. vm_compute. reflexivity. Qed.

(** ** The theorems at the scenarios *)





(** A target_percent entry that is not a number. *)
Lemma non_numeric_rejected_before_mutation_witness :
  let c := chunk_of 1 one_to_ten in
  let W := widgets_of None (Some 5) (Some 5) (Some (1 # 2)) in
  runButtonClicked (engine := still_engine) true W Step_ReprojectionError c
  = (c, Some (Raised ValueError)).
Proof.
  intros c W.
  apply (@non_numeric_rejected_before_mutation still_engine W Step_ReprojectionError c).
  left. reflexivity.
Defined.

(** A chunk of accuracy 1 after a step configured with 1/2. *)
Lemma tiepoint_accuracy_overwritten_witness :
  tiepoint_accuracy (chunk_of 1 one_to_ten) = 1 /\
  tiepoint_accuracy
    (fst (executeStep (engine := still_engine)
            (widgets_of (Some 20) (Some 5) (Some 3) (Some (1 # 2)))
            Step_ReprojectionError 20 5 3 (chunk_of 1 one_to_ten)))
  = 1 # 2.
Proof.
  split; [reflexivity|].
  apply (@tiepoint_accuracy_overwritten still_engine
           (widgets_of (Some 20) (Some 5) (Some 3) (Some (1 # 2)))
           Step_ReprojectionError 20 5 3 (chunk_of 1 one_to_ten) (1 # 2)).
  - intros values th c0. reflexivity.
  - intros fl c0. reflexivity.
  - reflexivity.
Defined.

Unset Implicit Arguments.


(** * Further properties of the code *)

(** ** Further properties of executeStep *)

Lemma range_nonpositive (n : Z) : (n <= 0)%Z -> Py.range n = [].
Proof. intros H. unfold Py.range. replace (Z.to_nat n) with O by lia. reflexivity. Qed.

(** X1.  A max_iter below 1 (its integer part at most 0) runs no pass:
    executeStep has overwritten the tie point accuracy with the entry of
    the step, changes nothing else, and fails with the NameError of the
    loop variable read after the loop (line 1382). *)
Theorem no_pass_raises_name_error {engine : Metashape}
        (widgets : Step -> StepWidgets) (step : Step) (p t max_iter : Q)
        (c : Chunk) (a : Q) :
  tiepoint_ledit (widgets step) = Some a ->
  (Py.int max_iter <= 0)%Z ->
  executeStep widgets step p t max_iter c
  = (set_tiepoint_accuracy a c, Raised NameError).
Proof.
  intros Ha Hm. unfold executeStep. rewrite Ha, range_nonpositive by exact Hm.
  reflexivity.
Qed.

Lemma loop_pass_count {engine : Metashape} (step : Step) (p t max_iter : Q)
      (flags : FitFlags) (n : nat) :
  forall (a : nat) (last_it : option Z) (v : Vars) (c' : Chunk) (r : RunResult),
    (forall it, last_it = Some it -> it = (Z.of_nat a - 1)%Z /\ (1 <= a)%nat) ->
    loop step p t max_iter flags (map Z.of_nat (seq a n)) last_it v = (c', Finished r) ->
    (1 <= N_iter r <= Z.of_nat (a + n))%Z /\
    (converged r = false -> inject_Z (N_iter r) == max_iter).
Proof.
  induction n as [|n IH]; intros a last_it v c' r Hlast Hrun.
  - cbn [seq map loop] in Hrun. unfold after_loop in Hrun.
    destruct last_it as [it|]; [|discriminate].
    destruct (Hlast it eq_refl) as [-> Ha].
    destruct (Qeq_bool _ _ && negb (fin v)) eqn:E; [|discriminate].
    destruct (report_finished _ _ _ _ Hrun) as (HN & _).
    apply andb_prop in E. destruct E as [E _]. apply Qeq_bool_eq in E.
    rewrite HN. split; [lia|]. intros _.
    rewrite inject_Z_plus. rewrite E. ring.
  - cbn [seq map loop] in Hrun.
    destruct (iteration step p t flags (Z.of_nat a) v) as [[v' f']|e c] eqn:Hit;
      [|discriminate].
    destruct (fin v').
    + destruct (report_finished _ _ _ _ Hrun) as (HN & Hc & _).
      rewrite HN, Hc. split; [lia|discriminate].
    + apply IH in Hrun.
      * replace (a + S n)%nat with (S a + n)%nat by lia. exact Hrun.
      * intros it E. inversion E. split; lia.
Qed.

(** X2.  A run of executeStep that finishes reports between 1 and
    int(max_iter) passes; one that finishes without having converged has
    run max_iter passes, max_iter being a whole number (the test of line
    1382 compares the loop variable with max_iter - 1). *)
Theorem pass_count_within_budget {engine : Metashape}
        (widgets : Step -> StepWidgets) (step : Step) (p t max_iter : Q)
        (c c' : Chunk) (r : RunResult) :
  executeStep widgets step p t max_iter c = (c', Finished r) ->
  (1 <= N_iter r <= Py.int max_iter)%Z /\
  (converged r = false -> inject_Z (N_iter r) == max_iter).
Proof.
  unfold executeStep. destruct (tiepoint_ledit (widgets step)) as [a|]; [|discriminate].
  unfold Py.range. intros Hrun. apply loop_pass_count in Hrun; [|discriminate].
  destruct Hrun as [[H1 H2] H3]. split; [|exact H3]. lia.
Qed.

Lemma scan_range_empty (p : Q) : (Py.int p <= 0)%Z -> scan_range p = [].
Proof.
  intros H. unfold scan_range, mfac. apply reversed_range_nil. lia.
Qed.

(** A percentile pass with an empty scan range and nothing carried over
    changes nothing. *)
Lemma idle_pass {engine : Metashape} (step : Step) (p t : Q) (flags : FitFlags)
      (it : Z) (c : Chunk) :
  is_rmse step = false -> (Py.int p <= 0)%Z ->
  iteration step p t flags it (initial c) = Raise ValueError c \/
  iteration step p t flags it (initial c)
  = Ok (initial c, filter_init (criteria step) c).
Proof.
  intros Hs Hp. unfold iteration. rewrite sample_head.
  cbn [chunk initial threshold fin npoint_list].
  destruct (if (it =? 0)%Z then _ else _) as [m|]; [right|left; reflexivity].
  unfold search. rewrite Hs. cbn [negb].
  unfold percentile_descent. rewrite scan_range_empty by exact Hp.
  cbn [scan bind]. rewrite rmse_check_percentile by exact Hs. reflexivity.
Qed.

Lemma idle_loop {engine : Metashape} (step : Step) (p t max_iter : Q)
      (flags : FitFlags) (c : Chunk) (its : list Z) :
  is_rmse step = false -> (Py.int p <= 0)%Z ->
  forall last_it,
    fst (loop step p t max_iter flags its last_it (initial c)) = c /\
    forall r, snd (loop step p t max_iter flags its last_it (initial c)) = Finished r ->
              converged r = false /\ history r = [].
Proof.
  intros Hs Hp. induction its as [|it its IH]; intros last_it; cbn [loop].
  - unfold after_loop. destruct last_it as [it|]; [|split; [reflexivity|discriminate]].
    destruct (Qeq_bool _ _ && negb (fin (initial c))); [|split; [reflexivity|discriminate]].
    split; [apply report_keeps_chunk|].
    intros r Hr. unfold report in *. destruct (Py.max _); [|discriminate].
    inversion Hr. auto.
  - destruct (idle_pass step p t flags it c Hs Hp) as [E|E]; rewrite E.
    + split; [reflexivity|discriminate].
    + cbn [fin initial]. apply IH.
Qed.

(** X3.  In a percentile step a target_percent below 1 (integer part at
    most 0) empties the scan range of line 1242: whatever max_iter, no
    point is removed and no optimization is run (the chunk is the one
    given, with the tie point accuracy of the step), nothing enters the
    history, and a run that finishes has not converged. *)
Theorem percent_below_one_is_idle {engine : Metashape}
        (widgets : Step -> StepWidgets) (step : Step) (p t max_iter : Q)
        (c : Chunk) (a : Q) :
  is_rmse step = false ->
  tiepoint_ledit (widgets step) = Some a ->
  (Py.int p <= 0)%Z ->
  fst (executeStep widgets step p t max_iter c) = set_tiepoint_accuracy a c /\
  forall r, snd (executeStep widgets step p t max_iter c) = Finished r ->
            converged r = false /\ history r = [].
Proof.
  intros Hs Ha Hp. unfold executeStep. rewrite Ha.
  apply idle_loop; assumption.
Qed.


Lemma getitem_beyond {A : Type} (l : list A) (i : Z) :
  (Z.of_nat (length l) <= i)%Z -> Py.getitem l i = None.
Proof.
  intros H. unfold Py.getitem.
  destruct (Z.leb_spec 0 i); [|lia].
  apply nth_error_None. lia.
Qed.

Lemma int_monotone_from_int (z : Z) (x : Q) :
  inject_Z z <= x -> (0 <= z)%Z -> (z <= Py.int x)%Z.
Proof.
  intros H Hz.
  assert (Hx : 0 <= x).
  { eapply Qle_trans; [|exact H]. replace 0 with (inject_Z 0) by reflexivity.
    rewrite <- Zle_Qle. exact Hz. }
  rewrite int_nonneg_floor by exact Hx.
  rewrite <- (Qfloor_Z z). apply Qfloor_resp_le. exact H.
Qed.

(** With target_percent at most 0 the RMSE cut index is the length of the
    distribution or beyond. *)
Lemma rmse_target_beyond (D : list Q) (p : Q) :
  p <= 0 -> (Z.of_nat (length D) <= rmse_target D p)%Z.
Proof.
  intros Hp. unfold rmse_target. apply int_monotone_from_int; [|lia].
  unfold Py.len. set (n := Z.of_nat (length D)).
  assert (Hn : 0 <= inject_Z n).
  { replace 0 with (inject_Z 0) by reflexivity. rewrite <- Zle_Qle. lia. }
  assert (H1 : 1 <= (100 - p) / 100).
  { apply Qle_shift_div_l; [reflexivity|].
    setoid_replace (1 * 100) with (100 - 0) by ring.
    unfold Qminus. apply Qplus_le_r. apply Qopp_le_compat. exact Hp. }
  rewrite (Qmult_comm (inject_Z n)).
  setoid_replace (inject_Z n) with (1 * inject_Z n) at 1 by ring.
  apply Qmult_le_compat_r; assumption.
Qed.

(** X4.  In the RMSE step a target_percent of 0 or less puts the cut
    index of line 1274 at or past the end of the distribution: with an
    RMS above the target the first pass fails with the IndexError of line
    1275, the chunk changed in its tie point accuracy only. *)
Theorem rmse_percent_zero_raises {engine : Metashape}
        (widgets : Step -> StepWidgets) (p t max_iter : Q) (c : Chunk) (a : Q) :
  tiepoint_ledit (widgets Step_RMSE) = Some a ->
  (1 <= Py.int max_iter)%Z ->
  p <= 0 ->
  valid_error_values ReprojectionError c <> [] ->
  Py.gt (calcRMS (set_tiepoint_accuracy a c)) t = true ->
  executeStep widgets Step_RMSE p t max_iter c
  = (set_tiepoint_accuracy a c, Raised IndexError).
Proof.
  intros Ha Hm Hp Hv Hgt. unfold executeStep. rewrite Ha. unfold Py.range.
  destruct (Z.to_nat (Py.int max_iter)) as [|n] eqn:En; [lia|].
  cbn [seq map loop]. unfold iteration. rewrite sample_head.
  cbn [chunk initial criteria Z.of_nat Z.eqb threshold fin].
  set (D := QSort.sort (valid_error_values ReprojectionError (set_tiepoint_accuracy a c))).
  assert (HD : Py.max D <> None).
  { rewrite max_none. unfold D. intros E.
    pose proof (QSort.Permuted_sort
                  (valid_error_values ReprojectionError (set_tiepoint_accuracy a c))) as P.
    rewrite E in P. apply Permutation_sym, Permutation_nil in P. exact (Hv P). }
  destruct (Py.max D); [|congruence].
  unfold search. cbn [is_rmse negb]. rewrite Hgt.
  rewrite getitem_beyond by (apply rmse_target_beyond; exact Hp).
  reflexivity.
Qed.

(** In an RMSE run nothing is ever appended to the history. *)
Lemma rmse_iteration_history {engine : Metashape} (p t : Q) (flags : FitFlags)
      (it : Z) (v v' : Vars) (f' : list Q) :
  iteration Step_RMSE p t flags it v = Ok (v', f') ->
  npoint_list v' = npoint_list v.
Proof.
  unfold iteration. rewrite sample_head.
  destruct (if (it =? 0)%Z then _ else _) as [m|]; [|discriminate].
  destruct (search _ _ _ _ _ _ _) as [e|[th fin1]]; [discriminate|].
  unfold rmse_check. cbn [is_rmse].
  destruct th as [q|]; [destruct (Py.truthy (Some q))|]; cbn [bind];
    try (intros H; inversion H; reflexivity).
  unfold refine, bind.
  destruct (recheck _ _ _ _ _) as [[f1 fin2]|e c]; [|discriminate].
  destruct (resample _ _) as [D'|e c]; [|discriminate].
  cbn [is_rmse negb]. intros H; inversion H; reflexivity.
Qed.

Lemma rmse_loop_history {engine : Metashape} (p t max_iter : Q) (flags : FitFlags)
      (its : list Z) :
  forall last_it v c' r,
    npoint_list v = [] ->
    loop Step_RMSE p t max_iter flags its last_it v = (c', Finished r) ->
    history r = [].
Proof.
  induction its as [|it its IH]; intros last_it v c' r Hv Hrun; cbn [loop] in Hrun.
  - unfold after_loop in Hrun. destruct last_it as [it|]; [|discriminate].
    destruct (Qeq_bool _ _ && negb (fin v)); [|discriminate].
    destruct (report_finished _ _ _ _ Hrun) as (_ & _ & Hh & _). congruence.
  - destruct (iteration Step_RMSE p t flags it v) as [[v' f']|e c] eqn:Hit;
      [|discriminate].
    apply rmse_iteration_history in Hit.
    destruct (fin v').
    + destruct (report_finished _ _ _ _ Hrun) as (_ & _ & Hh & _). congruence.
    + eapply IH; [|exact Hrun]. congruence.
Qed.

(** X5.  The RMSE step never appends to npoint_list (line 1325): every
    run of it that finishes has an empty history and reports 0 reversals
    and 0 reversal points. *)
Theorem rmse_run_reports_no_reversal {engine : Metashape}
        (widgets : Step -> StepWidgets) (p t max_iter : Q) (c c' : Chunk)
        (r : RunResult) :
  executeStep widgets Step_RMSE p t max_iter c = (c', Finished r) ->
  history r = [] /\ n_reverse r = 0%Z /\ sum_positive_diff r = 0%Z.
Proof.
  unfold executeStep. destruct (tiepoint_ledit (widgets Step_RMSE)) as [a|]; [|discriminate].
  intros Hrun.
  assert (Hh : history r = []) by (eapply rmse_loop_history; [|exact Hrun]; reflexivity).
  split; [exact Hh|].
  assert (Hrep : n_reverse r = n_reverse_of (history r) /\
                 sum_positive_diff r = sum_positive_diff_of (history r)).
  { unfold Py.range in Hrun. apply loop_reversal_bound in Hrun.
    - tauto.
    - simpl. lia.
    - discriminate. }
  rewrite Hh in Hrep. exact Hrep.
Qed.

(** A scan whose candidates all index into the distribution returns
    normally, with a threshold taken from the distribution or the one it
    was entered with. *)
Lemma scan_in_range (D : list Q) (t : Q) (a : Z) :
  D <> [] -> (0 <= a)%Z ->
  forall (n : nat) (b : Z) th0 fin0,
    Z.of_nat n = (b - a)%Z -> (b <= 10000)%Z ->
    exists th fin',
      scan D t (Py.reversed_range a b) th0 fin0 = inr (th, fin') /\
      forall q, th = Some q -> In q D \/ th = th0.
Proof.
  intros HD Ha. induction n as [|n IH]; intros b th0 fin0 Hn Hb.
  - rewrite reversed_range_nil by lia. exists th0, fin0. split; [reflexivity|auto].
  - rewrite reversed_range_cons by lia. cbn [scan].
    assert (R : (0 <= scan_target D (fraction (b - 1)) < Z.of_nat (length D))%Z)
      by (apply scan_target_in_range; [exact HD|lia]).
    apply getitem_in_range in R. destruct R as (q & E & Hq). rewrite E.
    destruct (Py.lt q t).
    + destruct (Py.getitem D (backoff_target D (fraction (b - 1)))) as [q'|] eqn:E'.
      * exists (Some q'), true. split; [reflexivity|].
        intros x Hx. inversion Hx; subst. left.
        unfold Py.getitem in E'.
        destruct (0 <=? _)%Z; [eapply nth_error_In; eauto|].
        destruct (- _ <=? _)%Z; [eapply nth_error_In; eauto|discriminate].
      * destruct (IH (b - 1)%Z None true ltac:(lia) ltac:(lia)) as (th & fin' & Hs & Hin).
        exists th, fin'. split; [exact Hs|].
        intros x Hx. destruct (Hin x Hx) as [H|H]; [left; exact H|congruence].
    + destruct (IH (b - 1)%Z (Some q) fin0 ltac:(lia) ltac:(lia)) as (th & fin' & Hs & Hin).
      exists th, fin'. split; [exact Hs|].
      intros x Hx. destruct (Hin x Hx) as [H|H]; [left; exact H|].
      left. rewrite H in Hx. inversion Hx; subst. exact Hq.
Qed.

(** X6.  With target_percent at most 100 (integer part) and a non-empty
    distribution the search of lines 1242-1265 never leaves through an
    uncaught IndexError, and a threshold it returns is a value of the
    distribution or the threshold it was entered with. *)
Theorem descent_returns_member (D : list Q) (p t : Q) (th0 : option Q) (fin0 : bool) :
  D <> [] -> (Py.int p <= 100)%Z ->
  exists th fin',
    percentile_descent D p t th0 fin0 = inr (th, fin') /\
    forall q, th = Some q -> In q D \/ th = th0.
Proof.
  intros HD Hp. unfold percentile_descent, scan_range, mfac.
  destruct (Z.le_gt_cases (Py.int p) 0) as [H0|H0].
  - rewrite reversed_range_nil by lia. exists th0, fin0. split; [reflexivity|auto].
  - eapply scan_in_range with (n := Z.to_nat (Py.int p * 100)); try assumption; lia.
Qed.



(** ** Further properties of getNumProjectionsLowerThan *)

Lemma setitem_some {A : Type} (l : list A) (i : nat) (x : A) :
  (i < length l)%nat ->
  exists l', setitem l i x = Some l' /\ length l' = length l /\
             forall j, nth_error l' j = if Nat.eqb j i then Some x else nth_error l j.
Proof.
  revert i. induction l as [|y r IH]; intros i Hi; [simpl in Hi; lia|].
  destruct i as [|i]; cbn [setitem].
  - exists (x :: r). split; [reflexivity|]. split; [reflexivity|].
    intros [|j]; reflexivity.
  - destruct (IH i) as (l' & E & Hl & Hn); [simpl in Hi; lia|].
    rewrite E. exists (y :: l'). split; [reflexivity|]. split; [simpl; lia|].
    intros [|j]; [reflexivity|]. simpl. apply Hn.
Qed.

Lemma setitem_none {A : Type} (l : list A) (i : nat) (x : A) :
  (length l <= i)%nat -> setitem l i x = None.
Proof.
  revert i. induction l as [|y r IH]; intros i Hi; [reflexivity|].
  destruct i as [|i]; [simpl in Hi; lia|].
  cbn [setitem]. rewrite IH by (simpl in Hi; lia). reflexivity.
Qed.

(** Filling the lookup table keeps its length and writes only indices of
    points. *)
Lemma fill_point_ids_some (pts : list Point) :
  forall (k : Z) (ids : list Z),
    (forall p, In p pts -> (track_id p < length ids)%nat) ->
    exists ids', fill_point_ids pts k ids = Some ids' /\
                 length ids' = length ids /\
                 forall tr z, nth_error ids' tr = Some z ->
                              nth_error ids tr = Some z \/
                              (k <= z < k + Z.of_nat (length pts))%Z.
Proof.
  induction pts as [|p r IH]; intros k ids Hin; cbn [fill_point_ids].
  - exists ids. split; [reflexivity|]. split; [reflexivity|]. auto.
  - destruct (@setitem_some Z ids (track_id p) k) as (ids1 & E & Hl & Hn);
      [apply Hin; left; reflexivity|].
    rewrite E.
    destruct (IH (k + 1)%Z ids1) as (ids' & E' & Hl' & Hn').
    { intros q Hq. rewrite Hl. apply Hin. right. exact Hq. }
    exists ids'. split; [exact E'|]. split; [congruence|].
    intros tr z Hz. destruct (Hn' tr z Hz) as [H|H].
    + rewrite Hn in H. destruct (Nat.eqb tr (track_id p)).
      * inversion H; subst. right. simpl length. lia.
      * left. exact H.
    + right. simpl length. lia.
Qed.

Lemma fill_point_ids_none (pts : list Point) :
  forall (k : Z) (ids : list Z) (p : Point),
    In p pts -> (length ids <= track_id p)%nat ->
    fill_point_ids pts k ids = None.
Proof.
  induction pts as [|q r IH]; intros k ids p Hin Hp; [contradiction|].
  cbn [fill_point_ids].
  destruct (setitem ids (track_id q) k) as [ids1|] eqn:E; [|reflexivity].
  destruct Hin as [->|Hin].
  - rewrite setitem_none in E by exact Hp. discriminate.
  - apply (IH (k + 1)%Z ids1 p Hin).
    destruct (Nat.lt_ge_cases (track_id q) (length ids)) as [H|H].
    + destruct (@setitem_some Z ids (track_id q) k H) as (l' & E' & Hl & _).
      rewrite E in E'. inversion E'; subst. lia.
    + rewrite setitem_none in E by exact H. discriminate.
Qed.

Lemma count_projections_some (pts : list Point) (ids : list Z) (projs : list nat) :
  (forall tr, In tr projs -> (tr < length ids)%nat) ->
  (forall tr z, nth_error ids tr = Some z -> (z < Z.of_nat (length pts))%Z) ->
  forall acc, exists n, count_projections pts ids projs acc = Some n.
Proof.
  intros Hin Hids. induction projs as [|tr r IH]; intros acc; cbn [count_projections].
  - eauto.
  - destruct (nth_error ids tr) as [z|] eqn:E.
    + destruct (Z.ltb_spec z 0) as [Hz|Hz].
      * apply IH. intros x Hx. apply Hin. right. exact Hx.
      * assert (R : (0 <= z < Z.of_nat (length pts))%Z) by (split; [lia|eauto]).
        apply getitem_in_range in R. destruct R as (p & Ep & _). rewrite Ep.
        destruct (negb (valid p)); apply IH; intros x Hx; apply Hin; right; exact Hx.
    + apply nth_error_None in E.
      specialize (Hin tr (or_introl eq_refl)). lia.
Qed.

Lemma camera_loop_some (pts : list Point) (ids : list Z) (cams : list Camera) :
  (forall camera tr, In camera cams -> cam_type camera = Regular ->
                     transform camera = true ->
                     In tr (cam_projections camera) -> (tr < length ids)%nat) ->
  (forall tr z, nth_error ids tr = Some z -> (z < Z.of_nat (length pts))%Z) ->
  forall sums w, exists r, camera_loop pts ids cams sums w = Some r.
Proof.
  intros Hin Hids. induction cams as [|camera r IH]; intros sums w; cbn [camera_loop].
  - eauto.
  - assert (IH' : forall s w', exists x, camera_loop pts ids r s w' = Some x).
    { apply IH. intros cam tr Hc. apply Hin. right. exact Hc. }
    destruct (cam_type camera) eqn:Et; [|apply IH'].
    destruct (transform camera) eqn:Etr; cbn [negb]; [|apply IH'].
    destruct (@count_projections_some pts ids (cam_projections camera)) with (acc := 0%Z)
      as (n & En).
    + intros tr Htr. apply (Hin camera tr); auto. left. reflexivity.
    + exact Hids.
    + rewrite En. apply IH'.
Qed.

Lemma nth_error_repeat_eq {A : Type} (x : A) (n i : nat) (y : A) :
  nth_error (repeat x n) i = Some y -> y = x.
Proof.
  intros H. apply nth_error_In in H. apply repeat_spec in H. exact H.
Qed.

(** X8.  With the track ids of the points and of the projections of the
    posed regular cameras inside the track table, getNumProjectionsLowerThan
    returns a count, which lies between the number of cameras that are
    keyframes or have no pose and the number of all cameras. *)
Theorem low_projection_count_defined (c : Chunk) :
  (forall p, In p (points c) -> (track_id p < tracks c)%nat) ->
  (forall camera tr, In camera (cameras c) -> cam_type camera = Regular ->
                     transform camera = true ->
                     In tr (cam_projections camera) -> (tr < tracks c)%nat) ->
  exists n, getNumProjectionsLowerThan c = Some n /\
            (Z.of_nat (length (filter (fun camera => is_keyframe camera
                                                     || negb (transform camera))
                                      (cameras c))) <= n
             <= Z.of_nat (length (cameras c)))%Z.
Proof.
  intros Hp Hc. unfold getNumProjectionsLowerThan.
  destruct (@fill_point_ids_some (points c) 0%Z (repeat (-1)%Z (tracks c)))
    as (ids & E & Hl & Hn).
  { intros p Hin. rewrite repeat_length. apply Hp. exact Hin. }
  rewrite E. rewrite repeat_length in Hl.
  destruct (@camera_loop_some (points c) ids (cameras c)) with (sums := 0%Z) (w := 0%Z)
    as ([sums w] & El).
  { intros camera tr H1 H2 H3 H4. rewrite Hl. eapply Hc; eauto. }
  { intros tr z Hz. destruct (Hn tr z Hz) as [H|H]; [|lia].
    apply nth_error_repeat_eq in H. lia. }
  rewrite El. eexists. split; [reflexivity|].
  apply camera_loop_counts in El. destruct El as [-> ->].
  pose proof (cameras_partition (cameras c)) as Hpart.
  pose proof (filter_length_le
                (fun camera => negb (is_keyframe camera) && transform camera
                               && few_projections (points c) ids camera)
                (cameras c)) as Hfew.
  assert (Hsub : (length (filter (fun camera => negb (is_keyframe camera) && transform camera
                               && few_projections (points c) ids camera) (cameras c))
                  <= length (filter (fun camera => negb (is_keyframe camera)
                                                   && transform camera) (cameras c)))%nat).
  { clear. induction (cameras c) as [|x r IH]; [reflexivity|]. cbn [filter].
    destruct (negb (is_keyframe x) && transform x); cbn [andb].
    - destruct (few_projections _ _ x); simpl; lia.
    - exact IH. }
  assert (Hko : length (filter (fun camera => is_keyframe camera || negb (transform camera))
                               (cameras c))
                = (length (filter is_keyframe (cameras c))
                   + length (filter (fun camera => negb (is_keyframe camera)
                                                   && negb (transform camera)) (cameras c)))%nat).
  { clear. induction (cameras c) as [|x r IH]; [reflexivity|]. cbn [filter].
    destruct (is_keyframe x), (transform x); cbn [negb andb orb length]; lia. }
  lia.
Qed.

(** X9.  A point whose track id is not below the number of tracks makes
    getNumProjectionsLowerThan fail with the IndexError of the table
    assignment of line 1523. *)
Theorem point_track_out_of_range_raises (c : Chunk) (p : Point) :
  In p (points c) -> (tracks c <= track_id p)%nat ->
  getNumProjectionsLowerThan c = None.
Proof.
  intros Hin Hp. unfold getNumProjectionsLowerThan.
  rewrite (@fill_point_ids_none (points c) 0%Z (repeat (-1)%Z (tracks c)) p Hin).
  - reflexivity.
  - rewrite repeat_length. exact Hp.
Qed.

Lemma fill_point_ids_tracks (pts pts' : list Point) :
  invalidated pts pts' ->
  forall k ids, fill_point_ids pts' k ids = fill_point_ids pts k ids.
Proof.
  induction 1 as [|p p' r r' [Ht _] _ IH]; intros k ids; cbn [fill_point_ids].
  - reflexivity.
  - rewrite Ht. destruct (setitem ids (track_id p) k); [apply IH|reflexivity].
Qed.

Lemma invalidated_getitem (pts pts' : list Point) (z : Z) (p : Point) :
  invalidated pts pts' -> (0 <= z)%Z ->
  Py.getitem pts z = Some p ->
  exists p', Py.getitem pts' z = Some p' /\ (valid p' = true -> valid p = true).
Proof.
  intros H Hz. unfold Py.getitem.
  destruct (Z.leb_spec 0 z); [|lia].
  generalize (Z.to_nat z). clear Hz.
  induction H as [|q q' r r' [_ Hv] _ IH]; intros [|n] E; try discriminate.
  - inversion E; subst. exists q'. auto.
  - apply IH. exact E.
Qed.

Lemma count_projections_invalidated (pts pts' : list Point) (ids : list Z)
      (projs : list nat) :
  invalidated pts pts' ->
  forall acc acc' n,
    (acc' <= acc)%Z ->
    count_projections pts ids projs acc = Some n ->
    exists n', count_projections pts' ids projs acc' = Some n' /\ (n' <= n)%Z.
Proof.
  intros H. induction projs as [|tr r IH]; intros acc acc' n Hacc E;
    cbn [count_projections] in *.
  - inversion E; subst. eauto.
  - destruct (nth_error ids tr) as [z|]; [|discriminate].
    destruct (Z.ltb_spec z 0) as [Hz|Hz].
    + eapply IH; eauto.
    + destruct (Py.getitem pts z) as [p|] eqn:Ep; [|discriminate].
      destruct (invalidated_getitem pts pts' z p H Hz Ep) as (p' & Ep' & Hv). rewrite Ep'.
      destruct (valid p') eqn:Ev'; cbn [negb].
      * rewrite (Hv eq_refl) in E. cbn [negb] in E.
        eapply IH; [|exact E]. lia.
      * destruct (valid p); cbn [negb] in E; (eapply IH; [|exact E]; lia).
Qed.

Lemma camera_loop_invalidated (pts pts' : list Point) (ids : list Z)
      (cams : list Camera) :
  invalidated pts pts' ->
  forall sums sums' w s1 w1,
    (sums <= sums')%Z ->
    camera_loop pts ids cams sums w = Some (s1, w1) ->
    exists s1', camera_loop pts' ids cams sums' w = Some (s1', w1) /\ (s1 <= s1')%Z.
Proof.
  intros H. induction cams as [|camera r IH]; intros sums sums' w s1 w1 Hs E;
    cbn [camera_loop] in *.
  - inversion E; subst. eauto.
  - destruct (cam_type camera); [|eapply IH; eauto].
    destruct (negb (transform camera)); [eapply IH; eauto|].
    destruct (count_projections pts ids (cam_projections camera) 0) as [n|] eqn:En;
      [|discriminate].
    destruct (count_projections_invalidated pts pts' ids (cam_projections camera) H
                0%Z 0%Z n ltac:(lia) En) as (n' & En' & Hn).
    rewrite En'. eapply IH; [|exact E].
    destruct (Z.ltb_spec n 100), (Z.ltb_spec n' 100); lia.
Qed.

(** X10.  Marking points invalid never lowers the count of
    getNumProjectionsLowerThan: if it returns n on a chunk, it returns some
    n' >= n on the chunk with some of its points invalidated. *)
Theorem invalidation_never_lowers_count (c : Chunk) (pts' : list Point) (n : Z) :
  invalidated (points c) pts' ->
  getNumProjectionsLowerThan c = Some n ->
  exists n', getNumProjectionsLowerThan (with_points pts' c) = Some n' /\ (n <= n')%Z.
Proof.
  intros H. unfold getNumProjectionsLowerThan. cbn [points with_points tracks cameras].
  rewrite (fill_point_ids_tracks (points c) pts' H).
  destruct (fill_point_ids (points c) 0 (repeat (-1)%Z (tracks c))) as [ids|];
    [|discriminate].
  destruct (camera_loop (points c) ids (cameras c) 0 0) as [[s w]|] eqn:E;
    [|discriminate].
  intros Hn. inversion Hn; subst; clear Hn.
  destruct (camera_loop_invalidated (points c) pts' ids (cameras c) H
              0%Z 0%Z 0%Z s w ltac:(lia) E) as (s' & E' & Hs).
  rewrite E'. eexists. split; [reflexivity|]. lia.
Qed.

(** ** runAllSteps *)

Lemma run_steps_skips {engine : Metashape} (boxes : Step -> bool)
      (widgets : Step -> StepWidgets) (pre rest : list Step) :
  (forall s, In s pre -> boxes s = false) ->
  forall c done,
    run_steps (pre ++ rest) boxes widgets c done = run_steps rest boxes widgets c done.
Proof.
  intros H. induction pre as [|s pre IH]; intros c done; [reflexivity|].
  cbn [app run_steps]. rewrite (H s) by (left; reflexivity).
  apply IH. intros x Hx. apply H. right. exact Hx.
Qed.

(** X11.  runAllSteps converts the entries of a step right before that
    step runs: when an earlier checked step has run to its end and a later
    checked step has an entry that is not a number, the ValueError comes
    after the earlier step has changed the chunk, whose result stands. *)
Theorem auto_run_validates_late {engine : Metashape} (boxes : Step -> bool)
        (widgets : Step -> StepWidgets) (c c1 : Chunk) (r1 : RunResult)
        (pre mid rest : list Step) (s1 s2 : Step) (p t m : Q) :
  auto_run_order = pre ++ s1 :: mid ++ s2 :: rest ->
  (forall s, In s pre \/ In s mid -> boxes s = false) ->
  boxes s1 = true -> boxes s2 = true ->
  target_percent_ledit (widgets s1) = Some p ->
  target_threshold_ledit (widgets s1) = Some t ->
  max_iter_ledit (widgets s1) = Some m ->
  executeStep widgets s1 p t m c = (c1, Finished r1) ->
  target_percent_ledit (widgets s2) = None \/
  target_threshold_ledit (widgets s2) = None \/
  max_iter_ledit (widgets s2) = None ->
  runAllSteps boxes widgets c = (c1, [r1], Some ValueError).
Proof.
  intros Ho Hoff H1 H2 Hp Ht Hm Hrun Hbad. unfold runAllSteps. rewrite Ho.
  rewrite run_steps_skips by (intros s Hs; apply Hoff; left; exact Hs).
  cbn [run_steps]. rewrite H1, Hp, Ht, Hm, Hrun.
  rewrite run_steps_skips by (intros s Hs; apply Hoff; right; exact Hs).
  cbn [run_steps app]. rewrite H2.
  destruct Hbad as [E|[E|E]]; rewrite E;
    repeat match goal with |- context [match ?x with Some _ => _ | None => _ end] =>
                             destruct x end; reflexivity.
Qed.

(** ** calcRMS *)

Section ResidualFacts.

Variable error2 : Camera -> Point -> nat -> Q.

(** With every point invalid no projection is counted. *)
Lemma projection_loop_all_invalid (camera : Camera) (pts : list Point) (ids : list Z)
      (projs : list nat) :
  (forall p, In p pts -> valid p = false) ->
  (forall tr, In tr projs -> (tr < length ids)%nat) ->
  (forall tr z, nth_error ids tr = Some z -> (z < Z.of_nat (length pts))%Z) ->
  forall s n, Residuals.projection_loop error2 camera pts ids projs s n = Some (s, n).
Proof.
  intros Hv Hin Hids. induction projs as [|tr r IH]; intros s n;
    cbn [Residuals.projection_loop]; [reflexivity|].
  assert (IH' : forall s n, Residuals.projection_loop error2 camera pts ids r s n = Some (s, n))
    by (apply IH; intros x Hx; apply Hin; right; exact Hx).
  destruct (nth_error ids tr) as [z|] eqn:E.
  - destruct (Z.ltb_spec z 0) as [Hz|Hz]; [apply IH'|].
    assert (R : (0 <= z < Z.of_nat (length pts))%Z) by (split; [lia|eauto]).
    apply getitem_in_range in R. destruct R as (p & Ep & Hp). rewrite Ep.
    rewrite (Hv p Hp). cbn [negb]. apply IH'.
  - apply nth_error_None in E. specialize (Hin tr (or_introl eq_refl)). lia.
Qed.

(** X12.  On a chunk none of whose points is valid calcRMS counts no
    projection and fails with the ZeroDivisionError of err_sum / num
    (line 1075), whatever the cameras. *)
Theorem calcRMS_without_valid_point (c : Chunk) :
  (forall p, In p (points c) -> (track_id p < tracks c)%nat) ->
  (forall camera tr, In camera (cameras c) -> transform camera = true ->
                     enabled camera = true ->
                     In tr (cam_projections camera) -> (tr < tracks c)%nat) ->
  (forall p, In p (points c) -> valid p = false) ->
  Residuals.calcRMS error2 c = Residuals.ZeroDivisionError.
Proof.
  intros Hp Hc Hv. unfold Residuals.calcRMS.
  destruct (fill_point_ids_some (points c) 0%Z (repeat (-1)%Z (tracks c)))
    as (ids & E & Hl & Hn).
  { intros p Hin. rewrite repeat_length. apply Hp. exact Hin. }
  rewrite E. rewrite repeat_length in Hl.
  assert (Hids : forall tr z, nth_error ids tr = Some z ->
                              (z < Z.of_nat (length (points c)))%Z).
  { intros tr z Hz. destruct (Hn tr z Hz) as [H|H]; [|lia].
    apply nth_error_repeat_eq in H. lia. }
  assert (Hloop : forall cams, (forall x, In x cams -> In x (cameras c)) ->
                               forall s n, Residuals.camera_loop error2 (points c) ids cams s n
                                           = Some (s, n)).
  { induction cams as [|camera r IH]; intros Hsub s n; cbn [Residuals.camera_loop];
      [reflexivity|].
    assert (IH' : forall s n, Residuals.camera_loop error2 (points c) ids r s n = Some (s, n))
      by (apply IH; intros x Hx; apply Hsub; right; exact Hx).
    destruct (transform camera) eqn:Et; cbn [negb]; [|apply IH'].
    destruct (enabled camera) eqn:Ee; cbn [negb]; [|apply IH'].
    rewrite projection_loop_all_invalid; [apply IH'|exact Hv| |exact Hids].
    intros tr Htr. rewrite Hl. apply (Hc camera tr); auto. apply Hsub. left. reflexivity. }
  rewrite Hloop by auto. reflexivity.
Qed.




End ResidualFacts.

(** ** Scale bar statistics *)

Lemma control_loop_count (bars : list ScaleBars.ScaleBar) :
  forall s n,
    snd (ScaleBars.control_loop bars s n)
    = (n + Z.of_nat (length (filter (fun b => ScaleBars.measured b
                                              && ScaleBars.reference_enabled b) bars)))%Z.
Proof.
  induction bars as [|b r IH]; intros s n; cbn [ScaleBars.control_loop filter].
  - simpl. lia.
  - unfold ScaleBars.measured in *.
    destruct (Py.truthy (ScaleBars.distance b)); cbn [negb andb]; [|apply IH].
    destruct (ScaleBars.reference_enabled b), (ScaleBars.ends_defined b);
      cbn [negb andb length]; rewrite IH; lia.
Qed.

Lemma check_loop_count (bars : list ScaleBars.ScaleBar) :
  forall s n,
    snd (ScaleBars.check_loop bars s n)
    = (n + Z.of_nat (length (filter (fun b => ScaleBars.measured b
                                              && negb (ScaleBars.reference_enabled b)) bars)))%Z.
Proof.
  induction bars as [|b r IH]; intros s n; cbn [ScaleBars.check_loop filter].
  - simpl. lia.
  - unfold ScaleBars.measured in *.
    destruct (Py.truthy (ScaleBars.distance b)); cbn [negb andb]; [|apply IH].
    destruct (ScaleBars.reference_enabled b), (ScaleBars.ends_defined b);
      cbn [negb andb length]; rewrite IH; lia.
Qed.

Lemma result_none (sn : Q * Z) : ScaleBars.result sn = None <-> (snd sn <= 0)%Z.
Proof.
  destruct sn as [s n]. unfold ScaleBars.result. cbn [snd].
  destruct (Z.ltb_spec 0 n); split; try discriminate; try lia; reflexivity.
Qed.

Lemma filter_none {A : Type} (f : A -> bool) (l : list A) :
  length (filter f l) = O <-> forall x, In x l -> f x = false.
Proof.
  induction l as [|y r IH]; cbn [filter].
  - split; [intros _ x []|reflexivity].
  - destruct (f y) eqn:E.
    + split; [discriminate|]. intros H. specialize (H y (or_introl eq_refl)). congruence.
    + rewrite IH. split.
      * intros H x [->|Hx]; auto.
      * intros H x Hx. apply H. right. exact Hx.
Qed.

(** X14.  calcScaleBarErrorControl returns None exactly when no enabled
    scale bar has a source distance and both ends defined;
    calcScaleBarErrorCheck returns None exactly when no disabled one
    has. *)
Theorem scale_bar_error_unavailable (bars : list ScaleBars.ScaleBar) :
  (ScaleBars.calcScaleBarErrorControl bars = None <->
   forall b, In b bars -> ScaleBars.reference_enabled b = true ->
             ScaleBars.measured b = false) /\
  (ScaleBars.calcScaleBarErrorCheck bars = None <->
   forall b, In b bars -> ScaleBars.reference_enabled b = false ->
             ScaleBars.measured b = false).
Proof.
  unfold ScaleBars.calcScaleBarErrorControl, ScaleBars.calcScaleBarErrorCheck.
  rewrite !result_none, control_loop_count, check_loop_count. split.
  - split.
    + intros H b Hb He.
      assert (H0 : length (filter (fun b => ScaleBars.measured b
                                            && ScaleBars.reference_enabled b) bars) = O) by lia.
      rewrite filter_none in H0. specialize (H0 b Hb). cbn beta in H0.
      rewrite He, andb_true_r in H0. exact H0.
    + intros H.
      assert (H0 : length (filter (fun b => ScaleBars.measured b
                                            && ScaleBars.reference_enabled b) bars) = O).
      { apply filter_none. intros b Hb. cbn beta.
        destruct (ScaleBars.reference_enabled b) eqn:He.
        - rewrite (H b Hb He). reflexivity.
        - apply andb_false_r. }
      rewrite H0. simpl. lia.
  - split.
    + intros H b Hb He.
      assert (H0 : length (filter (fun b => ScaleBars.measured b
                                            && negb (ScaleBars.reference_enabled b)) bars) = O)
        by lia.
      rewrite filter_none in H0. specialize (H0 b Hb). cbn beta in H0.
      rewrite He in H0. cbn [negb] in H0. rewrite andb_true_r in H0. exact H0.
    + intros H.
      assert (H0 : length (filter (fun b => ScaleBars.measured b
                                            && negb (ScaleBars.reference_enabled b)) bars) = O).
      { apply filter_none. intros b Hb. cbn beta.
        destruct (ScaleBars.reference_enabled b) eqn:He.
        - apply andb_false_r.
        - rewrite (H b Hb He). reflexivity. }
      rewrite H0. simpl. lia.
Qed.

(** X15.  Every scale bar with a source distance and both ends defined is
    counted by exactly one of the two statistics: the two counts n add up
    to the number of such bars. *)
Theorem scale_bars_enter_one_statistic (bars : list ScaleBars.ScaleBar) :
  (snd (ScaleBars.control_loop bars 0 0) + snd (ScaleBars.check_loop bars 0 0))%Z
  = Z.of_nat (length (filter ScaleBars.measured bars)).
Proof.
  rewrite control_loop_count, check_loop_count.
  induction bars as [|b r IH]; [reflexivity|]. cbn [filter].
  destruct (ScaleBars.measured b), (ScaleBars.reference_enabled b);
    cbn [negb andb length]; lia.
Qed.

(** ** The report fields read back *)

Lemma split_from_solid (w : Report.text) :
  Report.solid w ->
  forall tok r, Report.split_from tok (w ++ r) = Report.split_from (tok ++ w) r.
Proof.
  induction w as [|c w IH]; intros Hw tok r.
  - now rewrite app_nil_r.
  - cbn [app Report.split_from]. rewrite (Hw c) by (left; reflexivity).
    rewrite IH by (intros x Hx; apply Hw; right; exact Hx).
    now rewrite <- app_assoc.
Qed.

Lemma split_from_spaces (n : nat) (r : Report.text) :
  Report.split_from [] (repeat Report.space n ++ r) = Report.split_from [] r.
Proof. induction n as [|n IH]; [reflexivity|exact IH]. Qed.

Lemma split_from_gap (tok : Report.text) (n : nat) (r : Report.text) :
  tok <> [] ->
  Report.split_from tok (repeat Report.space (S n) ++ r) = tok :: Report.split_from [] r.
Proof.
  intros Ht. cbn [repeat app Report.split_from].
  change (Report.is_space Report.space) with true. cbv iota.
  destruct tok; [congruence|]. now rewrite split_from_spaces.
Qed.

Lemma remove_app (c : Ascii.ascii) (x y : Report.text) :
  Report.remove c (x ++ y) = Report.remove c x ++ Report.remove c y.
Proof. apply filter_app. Qed.

Lemma remove_spaces (c : Ascii.ascii) (n : nat) :
  c <> Report.space -> Report.remove c (repeat Report.space n) = repeat Report.space n.
Proof.
  intros Hc. induction n as [|n IH]; [reflexivity|].
  cbn [repeat Report.remove filter].
  destruct (Ascii.eqb_spec Report.space c) as [E|E]; [congruence|].
  cbn [negb]. f_equal. exact IH.
Qed.

Lemma remove_solid (c : Ascii.ascii) (s : Report.text) :
  Report.solid s -> Report.solid (Report.remove c s).
Proof.
  intros H x Hx. apply H. unfold Report.remove in Hx. apply filter_In in Hx. tauto.
Qed.

Lemma remove_absent (c : Ascii.ascii) (s : Report.text) :
  ~ In c s -> Report.remove c s = s.
Proof.
  induction s as [|x s IH]; intros H; [reflexivity|].
  cbn [Report.remove filter].
  destruct (Ascii.eqb_spec x c) as [E|E].
  - exfalso. apply H. left. exact E.
  - cbn [negb]. f_equal. apply IH. intros Hin. apply H. right. exact Hin.
Qed.

(** The stripped text of a field: the two stripped entries, the first
    followed by at least two spaces, the second by the padding of the
    entry it came from. *)
Lemma stripped_field (a b : Report.text) :
  Report.remove Report.greater (Report.remove Report.minus (Report.field a b))
  = Report.remove Report.greater (Report.remove Report.minus a)
    ++ repeat Report.space (S (S (10 - length a)%nat))
    ++ Report.remove Report.greater (Report.remove Report.minus b)
    ++ repeat Report.space (10 - length b)%nat.
Proof.
  unfold Report.field, Report.ljust.
  rewrite !remove_app, !remove_spaces by discriminate.
  rewrite <- !app_assoc. f_equal.
  change (Report.remove Report.greater
            (Report.remove Report.minus
               [Report.space; Report.minus; Report.minus; Report.minus;
                Report.greater; Report.space]))
    with (repeat Report.space 2%nat).
  rewrite app_assoc, <- repeat_app.
  replace (10 - length a + 2)%nat with (S (S (10 - length a)%nat)) by lia.
  reflexivity.
Qed.

(** Two non-empty entries without whitespace, each followed by spaces
    (the first by at least one), split into these two entries. *)
Lemma split_two_entries (a b : Report.text) (m k : nat) :
  Report.solid a -> Report.solid b -> a <> [] -> b <> [] ->
  Report.split (a ++ repeat Report.space (S m) ++ b ++ repeat Report.space k) = [a; b].
Proof.
  intros Sa Sb Na Nb. unfold Report.split.
  rewrite split_from_solid by exact Sa. cbn [app].
  rewrite split_from_gap by exact Na. f_equal.
  rewrite split_from_solid by exact Sb. cbn [app].
  destruct k as [|k].
  - cbn [repeat Report.split_from]. destruct b; [congruence|reflexivity].
  - rewrite <- (app_nil_r (repeat Report.space (S k))).
    rewrite split_from_gap by exact Nb. reflexivity.
Qed.

(** X16.  Reading a field '{0: <10} ---> {1: <10}' back with
    replace('-','').replace('>','').split() gives two tokens: the two
    entries with every '-' and '>' removed, so that a sign or the sign of
    an exponent is lost. *)
Theorem field_tokens (a b : Report.text) :
  Report.solid a -> Report.solid b ->
  Report.remove Report.greater (Report.remove Report.minus a) <> [] ->
  Report.remove Report.greater (Report.remove Report.minus b) <> [] ->
  Report.tokens (Report.field a b)
  = [Report.remove Report.greater (Report.remove Report.minus a);
     Report.remove Report.greater (Report.remove Report.minus b)].
Proof.
  intros Ha Hb Na Nb. unfold Report.tokens.
  rewrite stripped_field.
  apply split_two_entries; try assumption; auto using remove_solid.
Qed.

(** X17.  A field written from two non-empty entries free of whitespace,
    '-' and '>' is read back, by the two-name unpacking of
    setChunkSpecificValues, as these two entries. *)
Theorem field_round_trip (a b : Report.text) :
  a <> [] -> b <> [] -> Report.solid a -> Report.solid b ->
  Report.plain a -> Report.plain b ->
  Report.unpack2 (Report.tokens (Report.field a b)) = Some (a, b).
Proof.
  intros Na Nb Ha Hb [Ma Ga] [Mb Gb].
  assert (Ea : Report.remove Report.greater (Report.remove Report.minus a) = a)
    by (rewrite (remove_absent Report.minus a Ma); apply remove_absent; exact Ga).
  assert (Eb : Report.remove Report.greater (Report.remove Report.minus b) = b)
    by (rewrite (remove_absent Report.minus b Mb); apply remove_absent; exact Gb).
  unfold Report.tokens. rewrite stripped_field, Ea, Eb.
  rewrite split_two_entries by assumption. reflexivity.
Qed.

(** X18.  The SEUW field ends in '.' right after the padded second entry
    (line 1461): the three-name unpacking of line 297 reads the two
    entries back when the second is shorter than 10 characters, and fails
    with the ValueError of the unpacking when it is not. *)
Theorem seuw_field_read_back (a b : Report.text) :
  a <> [] -> b <> [] -> Report.solid a -> Report.solid b ->
  Report.plain a -> Report.plain b ->
  Report.unpack3 (Report.tokens (Report.seuw_field a b))
  = if (length b <? 10)%nat then Some (a, b) else None.
Proof.
  intros Na Nb Ha Hb [Ma Ga] [Mb Gb].
  assert (Ea : Report.remove Report.greater (Report.remove Report.minus a) = a)
    by (rewrite (remove_absent Report.minus a Ma); apply remove_absent; exact Ga).
  assert (Eb : Report.remove Report.greater (Report.remove Report.minus b) = b)
    by (rewrite (remove_absent Report.minus b Mb); apply remove_absent; exact Gb).
  unfold Report.tokens, Report.split, Report.seuw_field.
  rewrite !remove_app, stripped_field, Ea, Eb.
  change (Report.remove Report.greater (Report.remove Report.minus [Report.dot]))
    with [Report.dot].
  rewrite <- !app_assoc.
  rewrite split_from_solid by exact Ha. cbn [app].
  rewrite split_from_gap by exact Na.
  rewrite split_from_solid by exact Hb. cbn [app].
  destruct (Nat.ltb_spec (length b) 10) as [H|H].
  - replace (10 - length b)%nat with (S (9 - length b)%nat) by lia.
    rewrite split_from_gap by exact Nb. reflexivity.
  - replace (10 - length b)%nat with 0%nat by lia. cbn [repeat app Report.split_from].
    change (Report.is_space Report.dot) with false. cbv iota.
    cbn [Report.split_from]. destruct (b ++ [Report.dot]) eqn:E.
    + apply app_eq_nil in E. destruct E; discriminate.
    + reflexivity.
Qed.

(** X19.  setChunkSpecificValues rewrites the SEUW field without the
    final '.' (line 298): read once more by its own three-name
    unpacking, the rewritten field fails with the ValueError of the
    unpacking. *)
Theorem seuw_field_lost_on_reload (a b : Report.text) :
  Report.solid a -> Report.solid b ->
  Report.remove Report.greater (Report.remove Report.minus a) <> [] ->
  Report.remove Report.greater (Report.remove Report.minus b) <> [] ->
  Report.unpack3 (Report.tokens (Report.field a b)) = None.
Proof.
  intros Ha Hb Na Nb. unfold Report.tokens. rewrite stripped_field.
  rewrite split_two_entries by (try assumption; auto using remove_solid).
  reflexivity.
Qed.

(** ** The session file *)

Lemma key_eqb_eq (a b : Memory.Key) : Memory.key_eqb a b = true <-> a = b.
Proof.
  destruct a as [x|s], b as [y|t]; cbn [Memory.key_eqb]; split; intros H;
    try discriminate.
  - apply Z.eqb_eq in H. congruence.
  - inversion H. apply Z.eqb_refl.
  - apply String.eqb_eq in H. congruence.
  - inversion H. apply String.eqb_refl.
Qed.

Lemma key_eqb_refl (a : Memory.Key) : Memory.key_eqb a a = true.
Proof. now apply key_eqb_eq. Qed.

Lemma key_eqb_neq (a b : Memory.Key) : a <> b -> Memory.key_eqb a b = false.
Proof.
  intros H. destruct (Memory.key_eqb a b) eqn:E; [|reflexivity].
  apply key_eqb_eq in E. contradiction.
Qed.

(** Assigning to a key the dict does not hold appends the pair. *)
Lemma setitem_fresh {V : Type} (d : Memory.Dict V) (k : Memory.Key) (v : V) :
  ~ In k (map fst d) -> Memory.setitem d k v = d ++ [(k, v)].
Proof.
  induction d as [|[k' v'] r IH]; intros H; cbn [Memory.setitem app]; [reflexivity|].
  rewrite key_eqb_neq by (intros E; apply H; left; exact E).
  rewrite IH by (intros E; apply H; right; exact E). reflexivity.
Qed.

Lemma getitem_in {V : Type} (d : Memory.Dict V) (k : Memory.Key) (v : V) :
  NoDup (map fst d) -> In (k, v) d -> Memory.getitem d k = Some v.
Proof.
  induction d as [|[k' v'] r IH]; intros Hn Hin; [contradiction|].
  cbn [Memory.getitem]. cbn [map fst] in Hn. inversion Hn as [|? ? Hk Hr]; subst.
  destruct Hin as [E|Hin].
  - inversion E; subst. now rewrite key_eqb_refl.
  - rewrite key_eqb_neq.
    + apply IH; assumption.
    + intros ->. apply Hk. apply (in_map fst) in Hin. exact Hin.
Qed.

Section Keys.

Variable str : Z -> String.string.
Variable int : String.string -> option Z.
Hypothesis int_str : forall z, int (str z) = Some z.

Lemma str_injective (x y : Z) : str x = str y -> x = y.
Proof.
  intros H. pose proof (int_str x) as Hx. rewrite H, int_str in Hx. congruence.
Qed.

(** What json.load reads back when no two keys are written alike. *)
Lemma json_load_distinct {V W : Type} (jv : V -> W) (pairs : list (Memory.Key * V)) :
  forall acc : Memory.Dict W,
    NoDup (map fst acc ++ map (fun kv => Memory.json_key str (fst kv)) pairs) ->
    Memory.json_load str jv pairs acc
    = acc ++ map (fun kv => (Memory.json_key str (fst kv), jv (snd kv))) pairs.
Proof.
  induction pairs as [|[k v] r IH]; intros acc Hn; cbn [Memory.json_load map].
  - now rewrite app_nil_r.
  - cbn [map fst snd] in Hn.
    rewrite setitem_fresh.
    + rewrite IH.
      * rewrite <- app_assoc. reflexivity.
      * rewrite map_app. cbn [map fst]. rewrite <- app_assoc. exact Hn.
    + apply NoDup_remove_2 in Hn. intros Hin. apply Hn. apply in_or_app. left. exact Hin.
Qed.

Lemma json_dict_str_keys {V W : Type} (jv : V -> W) (d : Memory.Dict V) :
  NoDup (map fst d) -> Memory.str_keys d ->
  Memory.json_dict str jv d = map (fun kv => (fst kv, jv (snd kv))) d.
Proof.
  intros Hn Hs. unfold Memory.json_dict.
  assert (E : forall kv, In kv d -> Memory.json_key str (fst kv) = fst kv).
  { intros [k v] Hin. destruct (Hs k) as [s ->]; [|reflexivity].
    apply (in_map fst) in Hin. exact Hin. }
  rewrite json_load_distinct.
  - apply map_ext_in. intros kv Hin. now rewrite E.
  - cbn [map app]. erewrite map_ext_in; [exact Hn|]. intros kv Hin. now apply E.
Qed.

Lemma json_keys_distinct {V : Type} (d : Memory.Dict V) :
  NoDup (map fst d) -> Memory.int_keys d ->
  NoDup (map (fun kv => Memory.json_key str (fst kv)) d).
Proof.
  intros Hn Hi. rewrite <- (map_map fst (Memory.json_key str)).
  unfold Memory.int_keys in Hi. induction (map fst d) as [|k ks IH]; [constructor|].
  inversion Hn as [|? ? Hk Hr]; subst. cbn [map]. constructor.
  - intros Hin. apply in_map_iff in Hin. destruct Hin as (k' & E & Hin').
    destruct (Hi k (or_introl eq_refl)) as [z ->].
    destruct (Hi k' (or_intror Hin')) as [z' ->].
    cbn [Memory.json_key] in E. inversion E as [E']. apply str_injective in E'.
    subst. contradiction.
  - apply IH; [exact Hr|]. intros x Hx. apply Hi. right. exact Hx.
Qed.

Lemma json_dict_int_keys {V : Type} (d : Memory.Dict V) :
  NoDup (map fst d) -> Memory.int_keys d ->
  Memory.json_dict str (fun v => v) d
  = map (fun kv => (Memory.json_key str (fst kv), snd kv)) d.
Proof.
  intros Hn Hi. unfold Memory.json_dict. rewrite json_load_distinct; [reflexivity|].
  cbn [map app]. apply json_keys_distinct; assumption.
Qed.

(** The conversion loop after the keys of [done] have been converted. *)
Lemma convert_keys_rest {V : Type} (mem : Memory.Dict V) (rest : Memory.Dict V) :
  forall done : Memory.Dict V,
    NoDup (map fst (done ++ rest)) -> Memory.int_keys (done ++ rest) ->
    (forall k v, In (k, v) rest -> Memory.getitem mem (Memory.json_key str k) = Some v) ->
    Memory.convert_keys int (map (fun kv => Memory.json_key str (fst kv)) rest) mem
      (map (fun kv => (Memory.json_key str (fst kv), snd kv)) rest ++ done)
    = Some (done ++ rest).
Proof.
  induction rest as [|[k v] r IH]; intros done Hn Hi Hget; cbn [map Memory.convert_keys].
  - now rewrite app_nil_r.
  - cbn [fst snd]. rewrite (Hget k v) by (left; reflexivity).
    destruct (Hi k) as [z ->].
    { rewrite map_app. apply in_or_app. right. left. reflexivity. }
    cbn [Memory.json_key Memory.int_of_key]. rewrite int_str.
    cbn [app Memory.setitem Memory.key_eqb].
    rewrite setitem_fresh.
    + cbn [Memory.delitem]. rewrite key_eqb_refl.
      rewrite <- app_assoc.
      replace (done ++ (Memory.KInt z, v) :: r) with ((done ++ [(Memory.KInt z, v)]) ++ r)
        by (rewrite <- app_assoc; reflexivity).
      apply IH.
      * rewrite <- app_assoc. exact Hn.
      * rewrite <- app_assoc. exact Hi.
      * intros k' v' Hin. apply Hget. right. exact Hin.
    + rewrite map_app, map_map. cbn [fst]. intros Hin. apply in_app_or in Hin.
      destruct Hin as [Hin|Hin].
      * apply in_map_iff in Hin. destruct Hin as ([k' v'] & E & _).
        cbn [fst] in E. destruct k'; discriminate.
      * rewrite map_app in Hn. cbn [map fst] in Hn. apply NoDup_remove_2 in Hn.
        apply Hn. apply in_or_app. left. exact Hin.
Qed.

Lemma convert_json_dict {V : Type} (d : Memory.Dict V) :
  NoDup (map fst d) -> Memory.int_keys d ->
  Memory.convert_dict int (Memory.json_dict str (fun v => v) d) = Some d.
Proof.
  intros Hn Hi. rewrite json_dict_int_keys by assumption.
  unfold Memory.convert_dict. rewrite map_map. cbn [fst].
  rewrite <- (app_nil_r (map (fun kv => (Memory.json_key str (fst kv), snd kv)) d)) at 2.
  apply (convert_keys_rest (map (fun kv => (Memory.json_key str (fst kv), snd kv)) d) d []).
  - exact Hn.
  - exact Hi.
  - intros k v Hin. apply getitem_in.
    + rewrite map_map. cbn [fst]. apply json_keys_distinct; assumption.
    + apply in_map_iff. exists (k, v). split; [reflexivity|exact Hin].
Qed.

Lemma convert_values_map {V : Type} (convert : V -> option V) (jv : V -> V)
      (d : Memory.Dict V) :
  (forall k v, In (k, v) d -> convert (jv v) = Some v) ->
  Memory.convert_values convert (map (fun kv => (fst kv, jv (snd kv))) d) = Some d.
Proof.
  induction d as [|[k v] r IH]; intros H; cbn [map Memory.convert_values fst snd];
    [reflexivity|].
  rewrite (H k v) by (left; reflexivity).
  rewrite IH by (intros k' v' Hin; apply (H k' v'); right; exact Hin). reflexivity.
Qed.

(** X20.  For a chunk memory with labels as keys on the two outer levels
    and tab indices on the inner one, no key twice in a dict, reading the
    session file back (json.load and the key conversion of lines 918-924)
    gives the memory that was written, in the same order. *)
Theorem session_file_round_trip {V : Type} (mem : Memory.Dict (Memory.Dict (Memory.Dict V))) :
  Memory.well_formed mem ->
  Memory.readChunkMemory int (Memory.json_memory str mem) = Some mem.
Proof.
  intros (Hn & Hs & Hk). unfold Memory.readChunkMemory, Memory.json_memory.
  rewrite json_dict_str_keys by assumption.
  apply convert_values_map. intros ch kinds Hin.
  destruct (Hk ch kinds Hin) as (Hn' & Hs' & Hd).
  rewrite json_dict_str_keys by assumption.
  apply convert_values_map. intros kind d Hin'.
  destruct (Hd kind d Hin') as (Hn'' & Hi).
  apply convert_json_dict; assumption.
Qed.

End Keys.

(** ** The further properties at the scenarios *)

(** max_iter 0.5 on ten points. *)
Lemma no_pass_raises_name_error_witness :
  executeStep (engine := still_engine)
    (widgets_of (Some 20) (Some 5) (Some (1 # 2)) (Some (1 # 2)))
    Step_ReprojectionError 20 5 (1 # 2) (chunk_of 1 one_to_ten)
  = (set_tiepoint_accuracy (1 # 2) (chunk_of 1 one_to_ten), Raised NameError).
Proof.
  apply (@no_pass_raises_name_error still_engine).
  - reflexivity.
  - vm_compute. discriminate.
Defined.

(** Thirty points and three passes, which run out. *)
Lemma pass_count_within_budget_witness :
  let r := {| N_iter := 3; converged := false; history := [20; 16; 12]%Z;
              n_points_left := 17; threshold_final := 30;
              n_reverse := 0; sum_positive_diff := 0 |} in
  (1 <= N_iter r <= Py.int 3)%Z /\ (converged r = false -> inject_Z (N_iter r) == 3).
Proof.
  intros r.
  apply (@pass_count_within_budget still_engine
           (widgets_of (Some 20) (Some 5) (Some 3) (Some (1 # 2)))
           Step_ReprojectionError 20 5 3 (chunk_of 1 one_to_thirty)
           (fst (executeStep (engine := still_engine)
                   (widgets_of (Some 20) (Some 5) (Some 3) (Some (1 # 2)))
                   Step_ReprojectionError 20 5 3 (chunk_of 1 one_to_thirty)))).
  vm_compute. reflexivity.
Defined.

(** target_percent 0.5 on ten points, two passes. *)
Lemma percent_below_one_is_idle_witness :
  let W := widgets_of (Some (1 # 2)) (Some 5) (Some 2) (Some (1 # 2)) in
  let c := chunk_of 1 one_to_ten in
  fst (executeStep (engine := still_engine) W Step_ReprojectionError (1 # 2) 5 2 c)
  = set_tiepoint_accuracy (1 # 2) c /\
  forall r, snd (executeStep (engine := still_engine) W Step_ReprojectionError (1 # 2) 5 2 c)
            = Finished r -> converged r = false /\ history r = [].
Proof.
  intros W c.
  apply (@percent_below_one_is_idle still_engine W Step_ReprojectionError (1 # 2) 5 2 c (1 # 2)).
  - reflexivity.
  - reflexivity.
  - vm_compute. discriminate.
Defined.

(** target_percent 0 on ten points whose RMS stand-in 10 is above the
    target 5. *)
Lemma rmse_percent_zero_raises_witness :
  executeStep (engine := still_engine)
    (widgets_of (Some 0) (Some 5) (Some 3) (Some (1 # 2)))
    Step_RMSE 0 5 3 (chunk_of 1 one_to_ten)
  = (set_tiepoint_accuracy (1 # 2) (chunk_of 1 one_to_ten), Raised IndexError).
Proof.
  apply (@rmse_percent_zero_raises still_engine).
  - reflexivity.
  - vm_compute. discriminate.
  - vm_compute. discriminate.
  - discriminate.
  - vm_compute. reflexivity.
Defined.

(** An RMSE run of three passes on ten points. *)
Lemma rmse_run_reports_no_reversal_witness :
  let r := {| N_iter := 3; converged := false; history := [];
              n_points_left := 7; threshold_final := 10;
              n_reverse := 0; sum_positive_diff := 0 |} in
  history r = [] /\ n_reverse r = 0%Z /\ sum_positive_diff r = 0%Z.
Proof.
  intros r.
  apply (@rmse_run_reports_no_reversal still_engine
           (widgets_of (Some 20) (Some 5) (Some 3) (Some (1 # 2)))
           20 5 3 (chunk_of 1 one_to_ten)
           (fst (executeStep (engine := still_engine)
                   (widgets_of (Some 20) (Some 5) (Some 3) (Some (1 # 2)))
                   Step_RMSE 20 5 3 (chunk_of 1 one_to_ten)))).
  vm_compute. reflexivity.
Defined.

(** The search on [1, 2, 3]. *)
Lemma descent_returns_member_witness :
  exists th fin',
    percentile_descent one_to_three 20 5 None false = inr (th, fin') /\
    forall q, th = Some q -> In q one_to_three \/ th = None.
Proof.
  apply (descent_returns_member one_to_three 20 5 None false).
  - discriminate.
  - vm_compute. discriminate.
Defined.


Lemma forallb_In {A : Type} (f : A -> bool) (l : list A) :
  forallb f l = true -> forall x, In x l -> f x = true.
Proof. intros H. apply forallb_forall. exact H. Qed.

(** Two cameras seeing a hundred points. *)
Lemma low_projection_count_defined_witness :
  exists n, getNumProjectionsLowerThan two_camera_chunk = Some n /\
            (Z.of_nat (length (filter (fun camera => is_keyframe camera
                                                     || negb (transform camera))
                                      (cameras two_camera_chunk))) <= n
             <= Z.of_nat (length (cameras two_camera_chunk)))%Z.
Proof.
  apply (low_projection_count_defined two_camera_chunk).
  - intros p Hp.
    apply (forallb_In (fun p => (track_id p <? 100)%nat) (points two_camera_chunk)) in Hp;
      [|vm_compute; reflexivity].
    apply Nat.ltb_lt. exact Hp.
  - intros camera tr Hc _ _ Ht.
    apply (forallb_In (fun cam => forallb (fun tr => (tr <? 100)%nat) (cam_projections cam))
                      (cameras two_camera_chunk)) in Hc; [|vm_compute; reflexivity].
    apply (forallb_In _ _ Hc) in Ht. apply Nat.ltb_lt. exact Ht.
Defined.

(** A point on track 5 of a chunk with one track. *)
Lemma point_track_out_of_range_raises_witness :
  getNumProjectionsLowerThan stray_track_chunk = None.
Proof.
  apply (point_track_out_of_range_raises stray_track_chunk
           {| valid := true; track_id := 5; value := fun _ => 1 |}).
  - left. reflexivity.
  - vm_compute. lia.
Defined.

(** The engine's removal marks points invalid and changes nothing else. *)
Lemma invalidated_refl (pts : list Point) : invalidated pts pts.
Proof.
  induction pts as [|x r IHr]; constructor; auto.
Qed.

Lemma invalidate_invalidated (strict : bool) (values : list Q) (th : Q) :
  forall pts, invalidated pts (invalidate strict values th pts).
Proof.
  induction values as [|q vs IH]; intros pts.
  - destruct pts; cbn [invalidate]; apply invalidated_refl.
  - destruct pts as [|p ps]; cbn [invalidate]; [constructor|].
    constructor; [|apply IH].
    destruct (if strict then Py.gt q th else Py.le th q); cbn.
    + split; [reflexivity|discriminate].
    + split; [reflexivity|auto].
Qed.

(** Every point of the two-camera chunk removed. *)
Lemma invalidation_never_lowers_count_witness :
  exists n',
    getNumProjectionsLowerThan
      (with_points (invalidate true (repeat 1 100) 0 (points two_camera_chunk))
                   two_camera_chunk) = Some n' /\ (1 <= n')%Z.
Proof.
  apply (invalidation_never_lowers_count two_camera_chunk
           (invalidate true (repeat 1 100) 0 (points two_camera_chunk)) 1%Z).
  - apply invalidate_invalidated.
  - vm_compute. reflexivity.
Defined.

(** The first step converges on [1, 2, 3]; the second has an entry that
    is not a number. *)
Lemma auto_run_validates_late_witness :
  let W := widgets_with_bad_percent Step_ProjectionAccuracy
             (Some 20) (Some 5) (Some 5) (Some (1 # 2)) in
  let c := chunk_of 1 one_to_three in
  let r1 := {| N_iter := 1; converged := true; history := [0%Z];
               n_points_left := 3; threshold_final := 3;
               n_reverse := 0; sum_positive_diff := 0 |} in
  runAllSteps (engine := still_engine) (fun _ => true) W c
  = (fst (executeStep (engine := still_engine) W Step_ReconstructionUncertainty 20 5 5 c),
     [r1], Some ValueError).
Proof.
  intros W c r1.
  apply (@auto_run_validates_late still_engine (fun _ => true) W c
           (fst (executeStep (engine := still_engine) W Step_ReconstructionUncertainty 20 5 5 c))
           r1 [] [] [Step_ReprojectionError; Step_RMSE]
           Step_ReconstructionUncertainty Step_ProjectionAccuracy 20 5 5).
  - reflexivity.
  - intros s [[]|[]].
  - reflexivity.
  - reflexivity.
  - reflexivity.
  - reflexivity.
  - reflexivity.
  - vm_compute. reflexivity.
  - left. reflexivity.
Defined.

(** Every residual 1, every point of the two-camera chunk removed. *)
Lemma calcRMS_without_valid_point_witness :
  Residuals.calcRMS (fun _ _ _ => 1)
    (with_points (invalidate true (repeat 1 100) 0 (points two_camera_chunk))
                 two_camera_chunk)
  = Residuals.ZeroDivisionError.
Proof.
  set (c := with_points (invalidate true (repeat 1 100) 0 (points two_camera_chunk))
                        two_camera_chunk).
  apply (calcRMS_without_valid_point (fun _ _ _ => 1) c).
  - intros p Hp.
    apply (forallb_In (fun p => (track_id p <? 100)%nat) (points c)) in Hp;
      [|vm_compute; reflexivity].
    apply Nat.ltb_lt. exact Hp.
  - intros camera tr Hc _ _ Ht.
    apply (forallb_In (fun cam => forallb (fun tr => (tr <? 100)%nat) (cam_projections cam))
                      (cameras c)) in Hc; [|vm_compute; reflexivity].
    apply (forallb_In _ _ Hc) in Ht. apply Nat.ltb_lt. exact Ht.
  - intros p Hp.
    apply (forallb_In (fun p => negb (valid p)) (points c)) in Hp;
      [|vm_compute; reflexivity].
    apply negb_true_iff. exact Hp.
Defined.


Ltac solid_text :=
  let c := fresh "c" in
  let H := fresh "H" in
  intros c H; cbn [In] in H;
  repeat (destruct H as [<-|H]; [reflexivity|]); destruct H.

Ltac plain_text :=
  let H := fresh "H" in
  split; intros H; cbn [In] in H;
  repeat (destruct H as [H|H]; [discriminate H|]); exact H.

(** The field of 1e-05 and 0.5: the exponent loses its sign. *)
Lemma field_tokens_witness :
  Report.tokens (Report.field Report.text_1e_05 Report.text_0_5)
  = [Report.remove Report.greater (Report.remove Report.minus Report.text_1e_05);
     Report.remove Report.greater (Report.remove Report.minus Report.text_0_5)].
Proof.
  apply (field_tokens Report.text_1e_05 Report.text_0_5).
  - solid_text.
  - solid_text.
  - discriminate.
  - discriminate.
Defined.

(** The field of 0.5 and 1234.56789. *)
Lemma field_round_trip_witness :
  Report.unpack2 (Report.tokens (Report.field Report.text_0_5 Report.text_1234_56789))
  = Some (Report.text_0_5, Report.text_1234_56789).
Proof.
  apply (field_round_trip Report.text_0_5 Report.text_1234_56789).
  - discriminate.
  - discriminate.
  - solid_text.
  - solid_text.
  - plain_text.
  - plain_text.
Defined.

(** The SEUW field of 0.5 and 1234.56789, a text of ten characters. *)
Lemma seuw_field_read_back_witness :
  Report.unpack3 (Report.tokens (Report.seuw_field Report.text_0_5 Report.text_1234_56789))
  = if (length Report.text_1234_56789 <? 10)%nat
    then Some (Report.text_0_5, Report.text_1234_56789) else None.
Proof.
  apply (seuw_field_read_back Report.text_0_5 Report.text_1234_56789).
  - discriminate.
  - discriminate.
  - solid_text.
  - solid_text.
  - plain_text.
  - plain_text.
Defined.

(** The field of 0.5 and 1234.56789 as written on reload. *)
Lemma seuw_field_lost_on_reload_witness :
  Report.unpack3 (Report.tokens (Report.field Report.text_0_5 Report.text_1234_56789))
  = None.
Proof.
  apply (seuw_field_lost_on_reload Report.text_0_5 Report.text_1234_56789).
  - solid_text.
  - solid_text.
  - discriminate.
  - discriminate.
Defined.

(** The decimal reader reads back what the decimal writer wrote. *)
Lemma decimal_int_str (z : Z) : Memory.decimal_int (Memory.decimal_str z) = Some z.
Proof.
  unfold Memory.decimal_int, Memory.decimal_str.
  rewrite DecimalString.NilZero.isi.
  - cbn [option_map]. rewrite DecimalZ.of_to. reflexivity.
  - destruct z; cbn [Z.to_int]; try discriminate.
    intros H. inversion H as [H']. exact (DecimalPos.Unsigned.to_uint_nonnil _ H').
  - destruct z; cbn [Z.to_int]; try discriminate.
    intros H. inversion H as [H']. exact (DecimalPos.Unsigned.to_uint_nonnil _ H').
Qed.

Ltac distinct_keys :=
  repeat (constructor; [cbn [In map fst]; intuition discriminate|]); constructor.

Ltac labels :=
  let k := fresh "k" in
  let H := fresh "H" in
  intros k H; cbn [In map fst] in H;
  repeat (destruct H as [<-|H]; [eexists; reflexivity|]); destruct H.

Lemma sample_memory_well_formed : Memory.well_formed Memory.sample_memory.
Proof.
  unfold Memory.well_formed, Memory.sample_memory.
  split; [distinct_keys|]. split; [labels|].
  intros ch kinds [H|[]]. inversion H; subst; clear H.
  split; [distinct_keys|]. split; [labels|].
  intros kind d [H|[H|[]]]; inversion H; subst; clear H;
    (split; [distinct_keys|labels]).
Qed.

(** One chunk with two tabs of settings and one of results, the tab
    indices written and read in decimal. *)
Lemma session_file_round_trip_witness :
  Memory.readChunkMemory Memory.decimal_int
    (Memory.json_memory Memory.decimal_str Memory.sample_memory)
  = Some Memory.sample_memory.
Proof.
  apply (session_file_round_trip Memory.decimal_str Memory.decimal_int decimal_int_str
           Memory.sample_memory).
  exact sample_memory_well_formed.
Defined.
